(** * remat-data: a shallow embedding of [src/remat_data/dataset.py] and
    [src/remat_data/config.py].

    The CLI is modelled as a state/error monad over
    - a flat local filesystem (the working directory: top-level entries are
      directories holding files, or plain files), and
    - a trace of observable effects (console output and the network calls
      made through the Clowder client or [requests]).
    Everything outside the repository (the pyclowder client, [requests],
    [mimetypes], the local files named on the command line) is a field of
    the record [world]; the theorems quantify over all worlds. *)

From Stdlib Require Import ZArith Ascii String.
From stdpp Require Import base gmap strings list pretty.

Open Scope string_scope.
Open Scope list_scope.

(** ** JSON values as returned by the service (numbers kept integral). *)
#[warnings="-register-all"]
Inductive json : Type :=
| JNull
| JBool (b : bool)
| JNum (n : Z)
| JStr (s : string)
| JArr (l : list json)
| JObj (fields : list (string * json)).

(** Python truthiness of a decoded JSON value ([not x]). *)
Definition truthy (j : json) : bool :=
  match j with
  | JNull => false
  | JBool b => b
  | JNum n => negb (Z.eqb n 0)
  | JStr s => negb (String.eqb s "")
  | JArr l => negb (Nat.eqb (length l) 0)
  | JObj fs => negb (Nat.eqb (length fs) 0)
  end.

(** [json.loads] keeps the last binding of a repeated key. *)
Fixpoint assoc_last (k : string) (fs : list (string * json)) : option json :=
  match fs with
  | [] => None
  | (k', v) :: rest =>
      match assoc_last k rest with
      | Some v' => Some v'
      | None => if String.eqb k k' then Some v else None
      end
  end.

(** Python [x == "literal"] for a decoded JSON value. *)
Definition json_eq_str (j : json) (s : string) : bool :=
  match j with JStr s' => String.eqb s' s | _ => false end.

(** ** Strings *)
Definition ascii_lower (c : Ascii.ascii) : Ascii.ascii :=
  let n := Ascii.nat_of_ascii c in
  if ((65 <=? n) && (n <=? 90))%nat then Ascii.ascii_of_nat (n + 32)%nat else c.

(** [str.lower()] on the ASCII range. *)
Fixpoint lower (s : string) : string :=
  match s with
  | EmptyString => EmptyString
  | String c rest => String (ascii_lower c) (lower rest)
  end.

(** [str.endswith(suf)]. *)
Definition ends_with (s suf : string) : bool :=
  (String.length suf <=? String.length s)%nat &&
  String.eqb (String.substring (String.length s - String.length suf) (String.length suf) s) suf.

Fixpoint split_slash_aux (cur : string) (s : string) : list string :=
  match s with
  | EmptyString => [cur]
  | String c rest =>
      if Ascii.eqb c "/"%char then cur :: split_slash_aux "" rest
      else split_slash_aux (cur +:+ String c EmptyString) rest
  end.

(** [Path(p).name]: the last component, after pathlib drops empty and
    ["."] components. *)
Definition path_name (p : string) : string :=
  let parts := List.filter (fun c => negb (String.eqb c "") && negb (String.eqb c "."))
                      (split_slash_aux "" p) in
  default "" (last parts).

(** ** config.py *)
Record config_t := {
  default_new_dataset_name : string;
  clowder_base_url : string;
  dataset_path : string
}.

Definition config : config_t := {|
  default_new_dataset_name := "Default Dataset";
  clowder_base_url := "https://re-mat.clowder.ncsa.illinois.edu";
  dataset_path := "datasets"
|}.

Definition space_map : list (string * string) := [
  ("DSC Cure Kinetics", "6810f088e4b00420021cff64");
  ("DSC Post Cures", "6669d4d0e4b0a2d1b9b9a797");
  ("Front velocities", "6674972be4b0a2d1b9ba0228");
  ("Test", "67edd4e8e4b00fd657cdd863")
].

Fixpoint lookup_str (k : string) (m : list (string * string)) : option string :=
  match m with
  | [] => None
  | (k', v) :: rest => if String.eqb k k' then Some v else lookup_str k rest
  end.

(** ** The outside world *)

(** Outcome of [requests.post]: a response with its [.ok], or an exception
    (connection error, the 1800 s timeout, ...). *)
Inductive http_outcome := HttpResp (ok : bool) | HttpRaise.

Record world := {
  (** [mimetypes.guess_type(path)[0]] *)
  guess_type : string -> option string;
  (** [Path.open(path, "rb")] succeeds on the file named on the command line *)
  local_readable : string -> bool;
  (** [clowder.get(path)]: the decoded JSON, or [None] when it raises *)
  clowder_get : string -> option json;
  (** bytes that [clowder.get_file(path, dest)] writes to [dest] *)
  clowder_file_bytes : string -> string;
  (** [clowder.post(path, body)]: decoded JSON, falsy on failure *)
  clowder_post : string -> json -> json;
  (** [clowder.post_file(path, filename)]: the file id (falsy when the
      upload fails silently), or [None] when it raises *)
  clowder_post_file : string -> string -> option json;
  (** [requests.post(url, files={"file": (name, fp, mime)}, ...)] *)
  http_post_multipart : string -> string -> string -> http_outcome;
  (** Python [str()] of a JSON value that is not a string (used by
      f-strings); no claim depends on its text *)
  str_other : json -> string
}.

(** f-string rendering [f"{x}"] of a decoded JSON value. *)
Definition py_str (w : world) (j : json) : string :=
  match j with JStr s => s | _ => str_other w j end.

(** ** Local filesystem and effects *)
Inductive content := Text (bytes : string) | JsonText (j : json).

Inductive node := NDir (files : gmap string content) | NFile (c : content).

Inductive event :=
| EvPrint (msg : string)
| EvGet (path : string)
| EvGetFile (path : string) (dest_dir dest_name : string)
| EvPost (path : string) (body : json)
| EvPostFile (path : string) (file : string)
| EvMultipart (url : string) (name : string) (mime : string).

Definition is_network (e : event) : bool :=
  match e with EvPrint _ => false | _ => true end.

Definition is_upload (e : event) : bool :=
  match e with EvPostFile _ _ | EvMultipart _ _ _ => true | _ => false end.

Inductive exn :=
| Exit (code : Z)               (* typer.Exit *)
| FileExistsError (p : string)  (* Path.mkdir on an existing path *)
| FileNotFoundError (p : string)(* open for writing in a missing directory *)
| OSError (p : string)          (* Path.open(p, "rb") failed *)
| KeyError (k : string)
| TypeError
| RequestException              (* raised by requests.post *)
| HTTPError (path : string).    (* raised by clowder.get *)

Record state := { fs : gmap string node; trace : list event }.

Inductive result (A : Type) := Ok (a : A) | Raise (e : exn).
Arguments Ok {A} a.
Arguments Raise {A} e.

Definition M (A : Type) : Type := state -> result A * state.

Global Instance M_ret : MRet M := fun A a s => (Ok a, s).
Global Instance M_bind : MBind M := fun A B k m s =>
  match m s with
  | (Ok a, s') => k a s'
  | (Raise e, s') => (Raise e, s')
  end.

Definition raise {A} (e : exn) : M A := fun s => (Raise e, s).

Definition emit (e : event) : M unit :=
  fun s => (Ok tt, {| fs := fs s; trace := trace s ++ [e] |}).

Definition print (msg : string) : M unit := emit (EvPrint msg).

Definition get_fs : M (gmap string node) := fun s => (Ok (fs s), s).

Definition put_fs (m : gmap string node) : M unit :=
  fun s => (Ok tt, {| fs := m; trace := trace s |}).

Fixpoint for_ {A} (l : list A) (f : A -> M unit) : M unit :=
  match l with
  | [] => mret tt
  | x :: rest => f x ;; for_ rest f
  end.

Fixpoint filter_m {A} (p : A -> M bool) (l : list A) : M (list A) :=
  match l with
  | [] => mret []
  | x :: rest =>
      p x ≫= fun (b : bool) =>
      filter_m p rest ≫= fun (r : list A) =>
      mret (M := M) (if b then x :: r else r)
  end.

(** Python truthiness of an optional string ([None] or [""] is falsy). *)
Definition opt_str_truthy (o : option string) : bool :=
  match o with Some s => negb (String.eqb s "") | None => false end.

(** [x or default] for an optional string. *)
Definition opt_str_or (o : option string) (dflt : string) : string :=
  match o with
  | Some s => if opt_str_truthy o then s else dflt
  | None => dflt
  end.

Section Program.

Variable w : world.

(** ** The Clowder client calls, each recorded in the trace *)

Definition clowder_get_m (path : string) : M json :=
  emit (EvGet path) ;;
  match clowder_get w path with
  | Some j => mret j
  | None => raise (HTTPError path)
  end.

Definition clowder_post_m (path : string) (body : json) : M json :=
  emit (EvPost path body) ;; mret (clowder_post w path body).

Definition clowder_post_file_m (path file : string) : M json :=
  emit (EvPostFile path file) ;;
  match clowder_post_file w path file with
  | Some j => mret j
  | None => raise (HTTPError path)
  end.

(** ** Python operations on decoded JSON *)

(** [j[k]] with a string key. *)
Definition getitem (j : json) (k : string) : M json :=
  match j with
  | JObj fields =>
      match assoc_last k fields with
      | Some v => mret v
      | None => raise (KeyError k)
      end
  | _ => raise TypeError
  end.

(** [for x in j]: lists yield their items, dicts their keys, strings
    their characters. *)
Definition py_iter (j : json) : M (list json) :=
  match j with
  | JArr l => mret l
  | JObj fields => mret (map (fun kv => JStr kv.1) fields)
  | JStr s => mret (map (fun c => JStr (String c EmptyString)) (list_ascii_of_string s))
  | _ => raise TypeError
  end.

(** [Path(x)] accepts only a [str]. *)
Definition as_path (j : json) : M string :=
  match j with JStr s => mret s | _ => raise TypeError end.

(** ** Filesystem operations *)

Definition dir_exists (m : gmap string node) (p : string) : bool :=
  match m !! p with Some (NDir _) => true | _ => false end.

(** [Path(p).is_dir()] *)
Definition is_dir (p : string) : M bool :=
  m ← get_fs;
  mret (dir_exists m p).

(** [Path(p).mkdir()]: no [exist_ok], no [parents]. The filesystem here is
    flat, keyed by path: of the failures of [mkdir] only [FileExistsError]
    is modelled, not a missing parent or a permission error. *)
Definition mkdir (p : string) : M unit :=
  m ← get_fs;
  match m !! p with
  | Some _ => raise (FileExistsError p)
  | None => put_fs (<[p := NDir ∅]> m)
  end.

(** Writing [dir/name] (open with "w" or "wb"); a missing directory, or a
    plain file in its place, raises. *)
Definition write_file (dir name : string) (c : content) : M unit :=
  m ← get_fs;
  match m !! dir with
  | Some (NDir files) => put_fs (<[dir := NDir (<[name := c]> files)]> m)
  | _ => raise (FileNotFoundError (dir +:+ "/" +:+ name))
  end.

(** [clowder.get_file(path, dir / name)] *)
Definition clowder_get_file_m (path dir name : string) : M unit :=
  emit (EvGetFile path dir name) ;;
  write_file dir name (Text (clowder_file_bytes w path)).

(** ** [download_dataset] (dataset.py, lines 127-144) *)
Definition download_dataset (dataset_id : string) : M unit :=
  mkdir dataset_id ;;
  clowder_get_m ("/datasets/" +:+ dataset_id +:+ "/metadata.jsonld") ≫= fun metadata =>
  write_file dataset_id "metadata.json" (JsonText metadata) ;;
  clowder_get_m ("/datasets/" +:+ dataset_id +:+ "/files") ≫= fun files =>
  py_iter files ≫= fun items =>
  filter_m (fun file =>
              getitem file "filename" ≫= fun fn =>
              mret (json_eq_str fn "DSC_Curve.csv")) items ≫= fun dsc_file =>
  match dsc_file with
  | [] => mret tt
  | f0 :: _ =>
      getitem f0 "id" ≫= fun fid =>
      clowder_get_file_m ("/files/" +:+ py_str w fid) dataset_id "DSC_Curve.csv"
  end.

(** ** [download_space] (dataset.py, lines 96-104) *)

(** The test of the first loop: [not Path(dataset_rec["id"]).is_dir()]. *)
Definition needs_download (dataset_rec : json) : M bool :=
  getitem dataset_rec "id" ≫= fun i =>
  as_path i ≫= fun p =>
  is_dir p ≫= fun (d : bool) => mret (negb d).

(** The body of the second loop: [download_dataset(dataset_rec["id"])]. *)
Definition download_rec (dataset_rec : json) : M unit :=
  getitem dataset_rec "id" ≫= fun i =>
  as_path i ≫= fun p =>
  download_dataset p.

Definition download_space (space_id : string) : M unit :=
  clowder_get_m ("/spaces/" +:+ space_id +:+ "/datasets") ≫= fun datasets =>
  py_iter datasets ≫= fun recs =>
  filter_m needs_download recs ≫= fun to_download =>
  for_ to_download download_rec.

End Program.

(** ** The upload command *)

(** [sum(space_names.values())] *)
Fixpoint sum_values (l : list (string * bool)) : nat :=
  match l with
  | [] => 0
  | (_, b) :: rest => (if b then 1 else 0) + sum_values rest
  end.

(** [next((name for name, value in space_names.items() if value), None)] *)
Fixpoint next_true (l : list (string * bool)) : option string :=
  match l with
  | [] => None
  | (n, b) :: rest => if b then Some n else next_true rest
  end.

Definition space_names (cure post_cure front_velocity test : bool) : list (string * bool) := [
  ("DSC Cure Kinetics", cure);
  ("DSC Post Cures", post_cure);
  ("Front velocities", front_velocity);
  ("Test", test)
].

Definition create_payload (dataset_name space_id : string) : json :=
  JObj [("name", JStr dataset_name);
        ("description", JStr "Dataset created by CLI");
        ("space", JArr [JStr space_id]);
        ("collection", JArr [])].

Section Upload.

Variable w : world.

(** The MIME type chosen by [_upload_file_with_mimetype] (lines 37-40). *)
Definition mime_of (file_path : string) : string :=
  let guessed0 := guess_type w file_path in
  let guessed_mime_type :=
    if negb (opt_str_truthy guessed0) && ends_with (lower file_path) ".mp4"
    then Some "video/mp4" else guessed0 in
  opt_str_or guessed_mime_type "application/octet-stream".

Definition multipart_url (dataset_id : json) : string :=
  clowder_base_url config +:+ "/api/uploadToDataset/" +:+ py_str w dataset_id.

(** [_upload_file_with_mimetype] (dataset.py, lines 30-46). *)
Definition upload_file_with_mimetype (dataset_id : json) (file_path : string) : M bool :=
  let url := multipart_url dataset_id in
  let mime_type := mime_of file_path in
  print ("Uploading " +:+ file_path +:+ " with MIME type " +:+ mime_type) ;;
  if negb (local_readable w file_path) then raise (OSError file_path) else
  emit (EvMultipart url (path_name file_path) mime_type) ;;
  match http_post_multipart w url (path_name file_path) mime_type with
  | HttpResp ok => mret ok
  | HttpRaise => raise RequestException
  end.

(** The body of the upload loop (dataset.py, lines 231-239). *)
Definition upload_one (dataset_id : json) (file_name : string) : M unit :=
  match guess_type w file_name with
  | Some m =>
      if String.eqb m "video/mp4" then
        upload_file_with_mimetype dataset_id file_name ≫= fun (ok : bool) =>
        if ok then mret tt else print ("Error uploading file " +:+ file_name)
      else
        clowder_post_file_m w ("/uploadToDataset/" +:+ py_str w dataset_id) file_name ≫= fun (file_id : json) =>
        if truthy file_id then mret tt else print ("Error uploading file " +:+ file_name)
  | None =>
      clowder_post_file_m w ("/uploadToDataset/" +:+ py_str w dataset_id) file_name ≫= fun (file_id : json) =>
      if truthy file_id then mret tt else print ("Error uploading file " +:+ file_name)
  end.

Definition dataset_url (dataset_id : json) (space_id : string) : string :=
  clowder_base_url config +:+ "/" +:+ dataset_path config +:+ "/" +:+
  py_str w dataset_id +:+ "?space=" +:+ space_id.

(** [upload_file] (dataset.py, lines 152-241); [dataset_name] is [None]
    when [--name] is absent. *)
Definition upload_file (cure post_cure front_velocity test : bool)
    (dataset_name : option string) (file_names : list string) : M unit :=
  let names := space_names cure post_cure front_velocity test in
  if negb (Nat.eqb (sum_values names) 1) then
    print "Error: You must specify exactly one space." ;; raise (Exit 1)
  else if Nat.eqb (length file_names) 0 then
    print "Error: You must specify at least one file to upload." ;; raise (Exit 1)
  else
  let space_name := next_true names in
  let name := opt_str_or dataset_name (default_new_dataset_name config) in
  (match space_name with
   | Some n =>
       match lookup_str n space_map with
       | Some i => mret i
       | None => raise (KeyError n)
       end
   | None => raise (KeyError "None")
   end) ≫= fun (space_id : string) =>
  print ("Uploading to Space: " +:+ default "None" space_name +:+ " and " +:+ space_id) ;;
  clowder_post_m w "/datasets/createempty" (create_payload name space_id) ≫= fun (resp : json) =>
  if negb (truthy resp) then
    print "Upload Failed: Failed to create a new dataset"
  else
  getitem resp "id" ≫= fun dataset_id =>
  for_ file_names (upload_one dataset_id) ;;
  print ("Uploaded Files to newly created dataset: " +:+ dataset_url dataset_id space_id).

End Upload.

(** ** The listing commands: [spaces] (lines 49-67) and [list_datasets]
    (lines 107-124).

    Besides the exceptions of [exn] they raise [AttributeError] ([x.get]
    on a value that is not a dict) and rich's [NotRenderableError]
    ([Table.add_row] given a cell that is neither a [str] nor [None]). *)
Inductive list_exn := LExn (e : exn) | AttributeError | NotRenderableError.

Inductive lresult (A : Type) := LOk (a : A) | LRaise (e : list_exn).
Arguments LOk {A} a.
Arguments LRaise {A} e.

Definition ML (A : Type) : Type := state -> lresult A * state.

Global Instance ML_ret : MRet ML := fun A a s => (LOk a, s).
Global Instance ML_bind : MBind ML := fun A B k m s =>
  match m s with
  | (LOk a, s') => k a s'
  | (LRaise e, s') => (LRaise e, s')
  end.

Definition lraise {A} (e : list_exn) : ML A := fun s => (LRaise e, s).

(** An action of [M] inside a listing command. *)
Definition lift {A} (m : M A) : ML A := fun s =>
  match m s with
  | (Ok a, s') => (LOk a, s')
  | (Raise e, s') => (LRaise (LExn e), s')
  end.

Fixpoint fold_m {A B} (f : B -> A -> ML B) (b : B) (l : list A) : ML B :=
  match l with
  | [] => mret b
  | x :: rest => f b x ≫= fun b' => fold_m f b' rest
  end.

(** [len(x)]: a dict has one entry per distinct key. *)
Definition py_len (j : json) : M nat :=
  match j with
  | JArr l => mret (length l)
  | JObj fields => mret (length (remove_dups (map fst fields)))
  | JStr s => mret (String.length s)
  | _ => raise TypeError
  end.

(** [x.get(k, dflt)] *)
Definition dict_get (j : json) (k : string) (dflt : json) : ML json :=
  match j with
  | JObj fields => mret (default dflt (assoc_last k fields))
  | _ => lraise AttributeError
  end.

(** A [rich.table.Table]: its title, its columns (header, style) and the
    text of the rows added so far. *)
Record table := {
  title : string;
  columns : list (string * string);
  rows : list (list string)
}.

(** One cell of [Table.add_row]: [None] is an empty cell, a [str] is kept,
    anything else raises. *)
Definition render_cell (j : json) : ML string :=
  match j with
  | JNull => mret ""
  | JStr s => mret s
  | _ => lraise NotRenderableError
  end.

Fixpoint render_cells (cells : list json) : ML (list string) :=
  match cells with
  | [] => mret []
  | c :: rest =>
      render_cell c ≫= fun x =>
      render_cells rest ≫= fun xs => mret (x :: xs)
  end.

(** [table.add_row] with one cell per column. *)
Definition add_row (t : table) (cells : list json) : ML table :=
  render_cells cells ≫= fun r =>
  mret {| title := title t; columns := columns t; rows := rows t ++ [r] |}.

Section Listing.

Variable w : world.
(** What [console.print(table)] writes: rich's rendering. *)
Variable render : table -> string.

Definition spaces_table : table := {|
  title := "Clowder Spaces";
  columns := [("Name", "cyan"); ("ID", "magenta"); ("datasets", "green")];
  rows := []
|}.

(** The body of the loop of [spaces], on the table built so far. *)
Definition space_row (tbl : table) (space : json) : ML table :=
  lift (getitem space "id") ≫= fun i =>
  lift (clowder_get_m w ("/spaces/" +:+ py_str w i +:+ "/datasets")) ≫= fun datasets =>
  lift (getitem space "name") ≫= fun name =>
  lift (getitem space "id") ≫= fun i' =>
  lift (py_len datasets) ≫= fun n =>
  add_row tbl [name; i'; JStr (pretty n)].

(** [spaces] (dataset.py, lines 49-67). *)
Definition spaces : ML unit :=
  lift (clowder_get_m w "/spaces") ≫= fun spaces_dict =>
  lift (py_iter spaces_dict) ≫= fun items =>
  fold_m space_row spaces_table items ≫= fun tbl =>
  lift (print (render tbl)).

Definition datasets_table (space : string) : table := {|
  title := "Datasets in Space: " +:+ space;
  columns := [("Name", "cyan"); ("ID", "magenta")];
  rows := []
|}.

(** The body of the loop of [list_datasets]. *)
Definition dataset_row (tbl : table) (dataset : json) : ML table :=
  dict_get dataset "name" (JStr "N/A") ≫= fun name =>
  dict_get dataset "id" (JStr "N/A") ≫= fun i =>
  add_row tbl [name; i].

(** [list_datasets] (dataset.py, lines 107-124). *)
Definition list_datasets (space : string) : ML unit :=
  lift (clowder_get_m w ("/spaces/" +:+ space +:+ "/datasets")) ≫= fun datasets =>
  lift (py_iter datasets) ≫= fun items =>
  fold_m dataset_row (datasets_table space) items ≫= fun tbl =>
  lift (print (render tbl)).

End Listing.

(** ** A concrete world, used to exercise the model *)
Definition dsc_record : json :=
  JObj [("id", JStr "f1"); ("filename", JStr "DSC_Curve.csv")].

Definition demo_world : world := {|
  guess_type := fun p =>
    if String.eqb p "video.mp4" then Some "video/mp4"
    else if String.eqb p "a.csv" then Some "text/csv"
    else if String.eqb p "clip.mov" then Some "video/quicktime"
    else None;
  local_readable := fun _ => true;
  clowder_get := fun p =>
    if String.eqb p "/spaces/S/datasets" then
      Some (JArr [JObj [("id", JStr "d1")]; JObj [("id", JStr "d2")]])
    else if String.eqb p "/datasets/d1/files" then Some (JArr [dsc_record])
    else if String.eqb p "/datasets/d2/files" then Some (JArr [])
    else Some (JObj [("@context", JStr "meta")]);
  clowder_file_bytes := fun _ => "time,heat";
  clowder_post := fun _ _ => JObj [("id", JStr "NEW")];
  clowder_post_file := fun _ _ => Some (JStr "F");
  http_post_multipart := fun _ _ _ => HttpResp true;
  str_other := fun _ => ""
|}.

Definition empty_state : state := {| fs := ∅; trace := [] |}.

(** ** Running the monad *)

(** The events an action appended to the trace. *)
Definition new_events (s s' : state) : list event := drop (length (trace s)) (trace s').

Lemma new_events_app (s : state) (m : gmap string node) (l : list event) :
  new_events s {| fs := m; trace := trace s ++ l |} = l.
Proof. unfold new_events; simpl. by rewrite drop_app_length. Qed.

Ltac run := cbv [mbind M_bind mret M_ret raise emit print get_fs put_fs] in *.

(** ** The upload command: flag validation *)

(** C2. For every combination of space flags whose count is not exactly one,
    [upload_file] raises [typer.Exit(code=1)], and the only effect is the
    console error: no network call, no filesystem change. *)
Theorem upload_rejects_bad_flag_count (w : world) (cure post_cure front_velocity test : bool)
    (dataset_name : option string) (file_names : list string) (s : state) :
  sum_values (space_names cure post_cure front_velocity test) <> 1 ->
  let '(r, s') := upload_file w cure post_cure front_velocity test dataset_name file_names s in
  r = Raise (Exit 1) /\ fs s' = fs s /\
  new_events s s' = [EvPrint "Error: You must specify exactly one space."] /\
  Forall (fun e => is_network e = false) (new_events s s').
Proof.
  intros Hsum. unfold upload_file.
  apply Nat.eqb_neq in Hsum. rewrite Hsum. simpl. run.
  rewrite new_events_app. repeat split; auto.
Qed.

Lemma upload_rejects_bad_flag_count_witness :
  sum_values (space_names true true false false) <> 1 /\
  (let w := {| guess_type := fun _ => None; local_readable := fun _ => true;
               clowder_get := fun _ => None; clowder_file_bytes := fun _ => "";
               clowder_post := fun _ _ => JNull; clowder_post_file := fun _ _ => Some JNull;
               http_post_multipart := fun _ _ _ => HttpRaise; str_other := fun _ => "" |} in
   let s := {| fs := ∅; trace := [] |} in
   let '(r, s') := upload_file w true true false false None ["a.csv"] s in
   r = Raise (Exit 1) /\ fs s' = fs s /\
   new_events s s' = [EvPrint "Error: You must specify exactly one space."] /\
   Forall (fun e => is_network e = false) (new_events s s')).
Proof.
  split; [simpl; lia |].
  apply (upload_rejects_bad_flag_count _ true true false false None ["a.csv"]).
  simpl; lia.
Defined.

(** ** [download_dataset] *)

(** C8. When the directory named by the identifier already exists,
    [download_dataset] raises [FileExistsError] at [mkdir], before any
    fetch: the state (filesystem and trace) is left unchanged. *)
Theorem download_dataset_existing_dir_fails (w : world) (dataset_id : string) (s : state)
    (files : gmap string content) :
  fs s !! dataset_id = Some (NDir files) ->
  download_dataset w dataset_id s = (Raise (FileExistsError dataset_id), s).
Proof.
  intros Hdir. unfold download_dataset, mkdir. run. by rewrite Hdir.
Qed.

Lemma download_dataset_existing_dir_fails_witness :
  let s := {| fs := {[ "abc" := NDir ∅ ]}; trace := [] |} in
  fs s !! "abc" = Some (NDir ∅) /\
  download_dataset demo_world "abc" s = (Raise (FileExistsError "abc"), s).
Proof.
  simpl. split; [reflexivity |].
  apply download_dataset_existing_dir_fails with (files := ∅). reflexivity.
Defined.

(** A file record of the [/datasets/{id}/files] listing: a dict with a
    ["filename"] and an ["id"]. *)
Definition file_record (f : json) : Prop :=
  exists fields fname fid,
    f = JObj fields /\ assoc_last "filename" fields = Some fname /\ assoc_last "id" fields = Some fid.

Definition is_dsc (f : json) : bool :=
  match f with
  | JObj fields =>
      match assoc_last "filename" fields with
      | Some fn => json_eq_str fn "DSC_Curve.csv"
      | None => false
      end
  | _ => false
  end.

Lemma filter_dsc_run (files : list json) (s : state) :
  Forall file_record files ->
  filter_m (fun file => getitem file "filename" ≫= fun fn => mret (json_eq_str fn "DSC_Curve.csv"))
    files s = (Ok (List.filter is_dsc files), s).
Proof.
  induction 1 as [|f rest Hf _ IH]; [reflexivity |].
  destruct Hf as (fields & fname & fid & -> & Hfn & _).
  simpl. run. simpl. rewrite Hfn, IH. cbn [List.filter is_dsc].
  by rewrite ?Hfn.
Qed.

Lemma filter_dsc_nil_iff (files : list json) :
  Forall file_record files ->
  (List.filter is_dsc files <> [] <->
   exists fields, In (JObj fields) files /\ assoc_last "filename" fields = Some (JStr "DSC_Curve.csv")).
Proof.
  induction 1 as [|f rest Hf _ IH].
  - simpl. split; [done | intros (? & [] & _)].
  - destruct Hf as (fields & fname & fid & -> & Hfn & _).
    cbn [List.filter is_dsc]. rewrite Hfn.
    destruct (json_eq_str fname "DSC_Curve.csv") eqn:E.
    + split; [intros _ | done].
      exists fields. split; [by left |].
      rewrite Hfn. destruct fname; try discriminate. simpl in E.
      apply String.eqb_eq in E. by subst.
    + rewrite IH. split.
      * intros (fs' & Hin & Hf'). exists fs'. split; [by right | done].
      * intros (fs' & [Heq | Hin] & Hf').
        -- injection Heq as ->. rewrite Hfn in Hf'. injection Hf' as ->.
           compute in E. discriminate.
        -- by exists fs'.
Qed.

Lemma filter_dsc_record (files : list json) (f0 : json) (rest : list json) :
  Forall file_record files -> List.filter is_dsc files = f0 :: rest -> file_record f0.
Proof.
  intros Hall Hf. assert (Hin : In f0 (List.filter is_dsc files)) by (rewrite Hf; simpl; left; reflexivity).
  apply filter_In in Hin as [Hin _].
  rewrite List.Forall_forall in Hall. by apply Hall.
Qed.

(** C3. For an identifier with nothing yet at its path, once the metadata and
    the file listing (a list of file records) are served, [download_dataset]
    succeeds; the only filesystem change is the new directory, which holds
    [metadata.json] with exactly the served metadata, and holds
    [DSC_Curve.csv] iff the listing has a file named exactly
    [DSC_Curve.csv]. *)
Theorem download_dataset_fresh_dir (w : world) (dataset_id : string) (s : state)
    (metadata : json) (files : list json) :
  fs s !! dataset_id = None ->
  clowder_get w ("/datasets/" +:+ dataset_id +:+ "/metadata.jsonld") = Some metadata ->
  clowder_get w ("/datasets/" +:+ dataset_id +:+ "/files") = Some (JArr files) ->
  Forall file_record files ->
  exists s' dir,
    download_dataset w dataset_id s = (Ok tt, s') /\
    fs s' = <[dataset_id := NDir dir]> (fs s) /\
    dir !! "metadata.json" = Some (JsonText metadata) /\
    (is_Some (dir !! "DSC_Curve.csv") <->
     exists fields, In (JObj fields) files /\
                    assoc_last "filename" fields = Some (JStr "DSC_Curve.csv")).
Proof.
  intros Hnone Hmeta Hfiles Hall.
  unfold download_dataset, mkdir, clowder_get_m, write_file. run.
  rewrite Hnone. simpl. rewrite Hmeta. simpl. rewrite lookup_insert_eq. simpl.
  rewrite Hfiles. simpl. rewrite filter_dsc_run by done.
  pose proof (filter_dsc_nil_iff files Hall) as Hiff.
  destruct (List.filter is_dsc files) as [|f0 rest] eqn:Hflt.
  - eexists _, _. split; [reflexivity |]. simpl.
    rewrite insert_insert_eq. split; [reflexivity |].
    split; [by rewrite lookup_insert_eq |].
    rewrite <- Hiff. rewrite lookup_insert_ne by done.
    rewrite lookup_empty. split; [by intros [? ?] | done].
  - destruct (filter_dsc_record files f0 rest Hall Hflt) as (fields & fname & fid & -> & _ & Hid).
    simpl. rewrite Hid. unfold clowder_get_file_m, write_file. run. simpl.
    rewrite lookup_insert_eq.
    eexists _, _. split; [reflexivity |]. simpl.
    rewrite !insert_insert_eq. split; [reflexivity |].
    split; [rewrite lookup_insert_ne by done; by rewrite lookup_insert_eq |].
    rewrite <- Hiff. rewrite lookup_insert_eq. split; [done | eauto].
Qed.

Lemma download_dataset_fresh_dir_witness :
  (fs empty_state !! "d1" = None) /\
  (clowder_get demo_world "/datasets/d1/metadata.jsonld" = Some (JObj [("@context", JStr "meta")])) /\
  (clowder_get demo_world "/datasets/d1/files" = Some (JArr [dsc_record])) /\
  Forall file_record [dsc_record] /\
  exists s' dir,
    download_dataset demo_world "d1" empty_state = (Ok tt, s') /\
    fs s' = <[ "d1" := NDir dir]> (fs empty_state) /\
    dir !! "metadata.json" = Some (JsonText (JObj [("@context", JStr "meta")])) /\
    (is_Some (dir !! "DSC_Curve.csv") <->
     exists fields, In (JObj fields) [dsc_record] /\
                    assoc_last "filename" fields = Some (JStr "DSC_Curve.csv")).
Proof.
  assert (Hrec : Forall file_record [dsc_record]).
  { constructor; [| constructor].
    eexists _, _, _. split; [reflexivity | split; reflexivity]. }
  split; [reflexivity |]. split; [reflexivity |]. split; [reflexivity |].
  split; [exact Hrec |].
  apply (download_dataset_fresh_dir demo_world "d1" empty_state); [reflexivity.. | exact Hrec].
Defined.

(** ** The upload command: run equations *)

Lemma upload_file_with_mimetype_run (w : world) (d : json) (f : string) (s : state) :
  upload_file_with_mimetype w d f s =
  (if local_readable w f then
     match http_post_multipart w (multipart_url w d) (path_name f) (mime_of w f) with
     | HttpResp ok => Ok ok
     | HttpRaise => Raise RequestException
     end
   else Raise (OSError f),
   {| fs := fs s;
      trace := trace s ++
        EvPrint ("Uploading " +:+ f +:+ " with MIME type " +:+ mime_of w f) ::
        (if local_readable w f
         then [EvMultipart (multipart_url w d) (path_name f) (mime_of w f)] else []) |}).
Proof.
  unfold upload_file_with_mimetype. run. simpl.
  destruct (local_readable w f); simpl; [| reflexivity].
  rewrite <- app_assoc. by destruct (http_post_multipart _ _ _ _).
Qed.









Lemma one_flag_space (cure post_cure front_velocity test : bool) :
  sum_values (space_names cure post_cure front_velocity test) = 1 ->
  exists n sid, next_true (space_names cure post_cure front_velocity test) = Some n /\
                lookup_str n space_map = Some sid.
Proof.
  destruct cure, post_cure, front_velocity, test; simpl; try discriminate;
    intros _; eexists _, _; split; reflexivity.
Qed.

(** After validation, [upload_file] prints the chosen space, issues the
    create call, and branches on the truthiness of its result. *)
Lemma upload_file_after_checks (w : world) (cure post_cure front_velocity test : bool)
    (dataset_name : option string) (file_names : list string) (s : state) (n sid : string) :
  sum_values (space_names cure post_cure front_velocity test) = 1 ->
  file_names <> [] ->
  next_true (space_names cure post_cure front_velocity test) = Some n ->
  lookup_str n space_map = Some sid ->
  let body := create_payload (opt_str_or dataset_name (default_new_dataset_name config)) sid in
  let s1 := {| fs := fs s;
               trace := trace s ++ [EvPrint ("Uploading to Space: " +:+ n +:+ " and " +:+ sid);
                                   EvPost "/datasets/createempty" body] |} in
  let resp := clowder_post w "/datasets/createempty" body in
  upload_file w cure post_cure front_velocity test dataset_name file_names s =
  if negb (truthy resp) then
    (Ok tt, {| fs := fs s; trace := trace s1 ++ [EvPrint "Upload Failed: Failed to create a new dataset"] |})
  else
    (getitem resp "id" ≫= fun dataset_id =>
     for_ file_names (upload_one w dataset_id) ;;
     print ("Uploaded Files to newly created dataset: " +:+ dataset_url w dataset_id sid)) s1.
Proof.
  intros Hsum Hfiles Hnext Hlook. unfold upload_file. cbv zeta.
  rewrite Hsum, Hnext. destruct file_names as [|x xs]; [congruence |].
  cbn [negb Nat.eqb length default]. rewrite Hlook. run. simpl.
  rewrite <- app_assoc. simpl.
  by destruct (truthy _).
Qed.

(** An action that only appends to the trace. *)
Definition appends {A} (m : M A) : Prop :=
  forall s, exists l, trace (snd (m s)) = (trace s ++ l)%list.

Lemma appends_ret {A} (a : A) : appends (mret a).
Proof. intros s. exists []. by rewrite app_nil_r. Qed.

Lemma appends_raise {A} (e : exn) : appends (A := A) (raise e).
Proof. intros s. exists []. by rewrite app_nil_r. Qed.

Lemma appends_emit (e : event) : appends (emit e).
Proof. intros s. by exists [e]. Qed.

Lemma appends_bind {A B} (m : M A) (k : A -> M B) :
  appends m -> (forall a, appends (k a)) -> appends (m ≫= k).
Proof.
  intros Hm Hk s. run. destruct (m s) as [[a|e] s'] eqn:E; simpl.
  - destruct (Hm s) as [l1 H1]. destruct (Hk a s') as [l2 H2].
    rewrite E in H1. simpl in H1. exists (l1 ++ l2). by rewrite H2, H1, app_assoc.
  - destruct (Hm s) as [l1 H1]. rewrite E in H1. by exists l1.
Qed.

Lemma appends_getitem (j : json) (k : string) : appends (getitem j k).
Proof.
  destruct j; try apply appends_raise. simpl.
  destruct (assoc_last k fields); [apply appends_ret | apply appends_raise].
Qed.

Lemma appends_for {A} (l : list A) (f : A -> M unit) :
  (forall x, appends (f x)) -> appends (for_ l f).
Proof.
  intros Hf. induction l as [|x rest IH]; simpl.
  - apply appends_ret.
  - apply appends_bind; [apply Hf | intros _; apply IH].
Qed.

Lemma appends_upload_one (w : world) (d : json) (f : string) : appends (upload_one w d f).
Proof.
  intros s. unfold upload_one.
  destruct (guess_type w f) as [m|].
  - destruct (String.eqb m "video/mp4").
    + run. rewrite upload_file_with_mimetype_run. simpl.
      destruct (local_readable w f); simpl.
      * destruct (http_post_multipart _ _ _ _) as [[|]|]; simpl; eauto.
        eexists. by rewrite <- app_assoc.
      * eauto.
    + unfold clowder_post_file_m. run. simpl.
      destruct (clowder_post_file _ _ _) as [j|]; simpl; eauto.
      destruct (truthy j); simpl; eauto. eexists. by rewrite <- app_assoc.
  - unfold clowder_post_file_m. run. simpl.
    destruct (clowder_post_file _ _ _) as [j|]; simpl; eauto.
    destruct (truthy j); simpl; eauto. eexists. by rewrite <- app_assoc.
Qed.

Lemma appends_after_create (w : world) (resp : json) (file_names : list string) (sid : string) :
  appends (getitem resp "id" ≫= fun dataset_id =>
           for_ file_names (upload_one w dataset_id) ;;
           print ("Uploaded Files to newly created dataset: " +:+ dataset_url w dataset_id sid)).
Proof.
  apply appends_bind; [apply appends_getitem | intros d].
  apply appends_bind; [apply appends_for; intros f; apply appends_upload_one |].
  intros _. apply appends_emit.
Qed.

Lemma new_events_of (s s' : state) (l : list event) :
  trace s' = trace s ++ l -> new_events s s' = l.
Proof. intros H. unfold new_events. by rewrite H, drop_app_length. Qed.

Lemma upload_file_create_first (w : world) (cure post_cure front_velocity test : bool)
    (dataset_name : option string) (file_names : list string) (s : state) (n sid : string) :
  sum_values (space_names cure post_cure front_velocity test) = 1 ->
  file_names <> [] ->
  next_true (space_names cure post_cure front_velocity test) = Some n ->
  lookup_str n space_map = Some sid ->
  let body := create_payload (opt_str_or dataset_name (default_new_dataset_name config)) sid in
  let '(r, s') := upload_file w cure post_cure front_velocity test dataset_name file_names s in
  exists post,
    new_events s s' = [EvPrint ("Uploading to Space: " +:+ n +:+ " and " +:+ sid);
                       EvPost "/datasets/createempty" body] ++ post /\
    (truthy (clowder_post w "/datasets/createempty" body) = false ->
     r = Ok tt /\ post = [EvPrint "Upload Failed: Failed to create a new dataset"]).
Proof.
  intros Hsum Hfiles Hn Hl body.
  rewrite (upload_file_after_checks w _ _ _ _ dataset_name file_names s n sid Hsum Hfiles Hn Hl).
  fold body.
  destruct (truthy (clowder_post w "/datasets/createempty" body)) eqn:Ht; simpl.
  - set (s1 := {| fs := fs s;
                  trace := trace s ++ [EvPrint ("Uploading to Space: " +:+ n +:+ " and " +:+ sid);
                                      EvPost "/datasets/createempty" body] |}).
    destruct (appends_after_create w (clowder_post w "/datasets/createempty" body)
                file_names sid s1) as [l Happ].
    destruct ((getitem _ "id" ≫= _) s1) as [r s'] eqn:E. simpl in Happ.
    exists l. split; [| discriminate].
    apply new_events_of. rewrite Happ. simpl. by rewrite <- app_assoc.
  - eexists. split; [| split; reflexivity].
    apply new_events_of. simpl. by rewrite <- app_assoc.
Qed.

(** C6. With exactly one space flag and at least one file, the first network
    call of [upload_file] is the dataset-creation call (only console output
    precedes it, so every file upload comes after it); when that call
    returns a falsy value, the command prints an error and returns, with no
    other call after it: no file upload and no second creation attempt. *)
Theorem upload_create_precedes_file_uploads (w : world) (cure post_cure front_velocity test : bool)
    (dataset_name : option string) (file_names : list string) (s : state) :
  sum_values (space_names cure post_cure front_velocity test) = 1 ->
  file_names <> [] ->
  let '(r, s') := upload_file w cure post_cure front_velocity test dataset_name file_names s in
  exists pre body post,
    new_events s s' = pre ++ EvPost "/datasets/createempty" body :: post /\
    Forall (fun e => is_network e = false) pre /\
    (truthy (clowder_post w "/datasets/createempty" body) = false ->
     r = Ok tt /\ post = [EvPrint "Upload Failed: Failed to create a new dataset"]).
Proof.
  intros Hsum Hfiles.
  destruct (one_flag_space _ _ _ _ Hsum) as (n & sid & Hn & Hl).
  pose proof (upload_file_create_first w _ _ _ _ dataset_name file_names s n sid Hsum Hfiles Hn Hl)
    as Hfirst.
  destruct (upload_file _ _ _ _ _ _ _ _) as [r s'].
  destruct Hfirst as (post & Hev & Hfail).
  exists [EvPrint ("Uploading to Space: " +:+ n +:+ " and " +:+ sid)],
    (create_payload (opt_str_or dataset_name (default_new_dataset_name config)) sid), post.
  split; [exact Hev |]. split; [by repeat constructor | exact Hfail].
Qed.

Lemma upload_create_precedes_file_uploads_witness :
  sum_values (space_names false false false true) = 1 /\ ["a.csv"] <> [] /\
  (let '(r, s') := upload_file demo_world false false false true None ["a.csv"] empty_state in
   exists pre body post,
     new_events empty_state s' = pre ++ EvPost "/datasets/createempty" body :: post /\
     Forall (fun e => is_network e = false) pre /\
     (truthy (clowder_post demo_world "/datasets/createempty" body) = false ->
      r = Ok tt /\ post = [EvPrint "Upload Failed: Failed to create a new dataset"])).
Proof.
  split; [reflexivity |]. split; [discriminate |].
  apply upload_create_precedes_file_uploads; [reflexivity | discriminate].
Defined.

(** C10. With exactly one space flag and at least one file, [--name ""] is
    falsy, so the dataset is created under the configured default name
    ["Default Dataset"], not under the empty string. *)
Theorem upload_empty_name_uses_default (w : world) (cure post_cure front_velocity test : bool)
    (file_names : list string) (s : state) :
  sum_values (space_names cure post_cure front_velocity test) = 1 ->
  file_names <> [] ->
  let '(_, s') := upload_file w cure post_cure front_velocity test (Some "") file_names s in
  exists pre sid post,
    new_events s s' = pre ++ EvPost "/datasets/createempty" (create_payload "Default Dataset" sid) :: post /\
    Forall (fun e => match e with EvPost _ _ => False | _ => True end) pre.
Proof.
  intros Hsum Hfiles.
  destruct (one_flag_space _ _ _ _ Hsum) as (n & sid & Hn & Hl).
  pose proof (upload_file_create_first w _ _ _ _ (Some "") file_names s n sid Hsum Hfiles Hn Hl)
    as Hfirst.
  destruct (upload_file _ _ _ _ _ _ _ _) as [r s'].
  destruct Hfirst as (post & Hev & _).
  exists [EvPrint ("Uploading to Space: " +:+ n +:+ " and " +:+ sid)], sid, post.
  split; [exact Hev | by repeat constructor].
Qed.

Lemma upload_empty_name_uses_default_witness :
  sum_values (space_names true false false false) = 1 /\ ["a.csv"] <> [] /\
  (let '(_, s') := upload_file demo_world true false false false (Some "") ["a.csv"] empty_state in
   exists pre sid post,
     new_events empty_state s' =
       pre ++ EvPost "/datasets/createempty" (create_payload "Default Dataset" sid) :: post /\
     Forall (fun e => match e with EvPost _ _ => False | _ => True end) pre).
Proof.
  split; [reflexivity |]. split; [discriminate |].
  apply upload_empty_name_uses_default; [reflexivity | discriminate].
Defined.










(** [mimetypes.guess_type] reads a path that starts with [data:] as a data
    URL; without a comma it returns no type, whatever the extension. *)
Definition dataurl_world : world := {|
  guess_type := fun p =>
    if String.prefix "data:" p && negb (existsb (Ascii.eqb ",") (list_ascii_of_string p))
    then None else guess_type demo_world p;
  local_readable := local_readable demo_world;
  clowder_get := clowder_get demo_world;
  clowder_file_bytes := clowder_file_bytes demo_world;
  clowder_post := clowder_post demo_world;
  clowder_post_file := clowder_post_file demo_world;
  http_post_multipart := http_post_multipart demo_world;
  str_other := str_other demo_world
|}.

(** The file [data:clip.mp4] gets no guess; [_upload_file_with_mimetype]
    would send it as [video/mp4], but the loop of [upload_file] only calls
    that helper on a [video/mp4] guess and sends the file with
    [post_file]. *)
Lemma upload_data_url_mp4_uses_post_file :
  guess_type dataurl_world "data:clip.mp4" = None /\
  ends_with (lower "data:clip.mp4") ".mp4" = true /\
  mime_of dataurl_world "data:clip.mp4" = "video/mp4" /\
  (let '(r, s') := upload_file dataurl_world true false false false None ["data:clip.mp4"] empty_state in
   r = Ok tt /\
   List.filter is_upload (trace s') = [EvPostFile "/uploadToDataset/NEW" "data:clip.mp4"]).
Proof. vm_compute. repeat split. Qed.



Lemma mime_of_unguessed (w : world) (f : string) :
  opt_str_truthy (guess_type w f) = false ->
  mime_of w f = if ends_with (lower f) ".mp4" then "video/mp4" else "application/octet-stream".
Proof.
  unfold mime_of. intros Hg. rewrite Hg. simpl.
  destruct (ends_with (lower f) ".mp4"); [reflexivity |].
  unfold opt_str_or. rewrite Hg. by destruct (guess_type w f).
Qed.

(** C9. The [.mp4] fallback of [_upload_file_with_mimetype] tests the
    lowercased path: whenever [mimetypes.guess_type] returns nothing and
    the lowercased path ends with [.mp4] (e.g. [MOVIE.MP4]), the announced
    type and the type sent with the multipart request are [video/mp4]. *)
Theorem mp4_fallback_case_insensitive (w : world) (d : json) (f : string) (s : state) :
  guess_type w f = None ->
  ends_with (lower f) ".mp4" = true ->
  let '(_, s') := upload_file_with_mimetype w d f s in
  new_events s s' =
    EvPrint ("Uploading " +:+ f +:+ " with MIME type video/mp4") ::
    (if local_readable w f then [EvMultipart (multipart_url w d) (path_name f) "video/mp4"] else []).
Proof.
  intros Hg Hend.
  assert (Hm : mime_of w f = "video/mp4").
  { rewrite mime_of_unguessed by (by rewrite Hg). by rewrite Hend. }
  rewrite upload_file_with_mimetype_run, Hm. apply new_events_app.
Qed.

Lemma mp4_fallback_case_insensitive_witness :
  guess_type demo_world "MOVIE.MP4" = None /\
  ends_with (lower "MOVIE.MP4") ".mp4" = true /\
  (let '(_, s') := upload_file_with_mimetype demo_world (JStr "NEW") "MOVIE.MP4" empty_state in
   new_events empty_state s' =
     EvPrint ("Uploading " +:+ "MOVIE.MP4" +:+ " with MIME type video/mp4") ::
     (if local_readable demo_world "MOVIE.MP4"
      then [EvMultipart (multipart_url demo_world (JStr "NEW")) (path_name "MOVIE.MP4") "video/mp4"]
      else [])).
Proof.
  split; [reflexivity |]. split; [vm_compute; reflexivity |].
  apply mp4_fallback_case_insensitive; [reflexivity | vm_compute; reflexivity].
Defined.

(** ** [download_space] *)

(** The identifier of a dataset record, when [Path(rec["id"])] accepts it. *)
Definition rec_id (dataset_rec : json) : option string :=
  match dataset_rec with
  | JObj fields =>
      match assoc_last "id" fields with Some (JStr p) => Some p | _ => None end
  | _ => None
  end.

(** An action that never removes a directory. *)
Definition keeps_dirs {A} (m : M A) : Prop :=
  forall s q, dir_exists (fs s) q = true -> dir_exists (fs (snd (m s))) q = true.

Create HintDb keeps.

Lemma keeps_ret {A} (a : A) : keeps_dirs (mret a).
Proof. intros s q H. exact H. Qed.

Lemma keeps_raise {A} (e : exn) : keeps_dirs (A := A) (raise e).
Proof. intros s q H. exact H. Qed.

Lemma keeps_emit (e : event) : keeps_dirs (emit e).
Proof. intros s q H. exact H. Qed.

Lemma keeps_bind {A B} (m : M A) (k : A -> M B) :
  keeps_dirs m -> (forall a, keeps_dirs (k a)) -> keeps_dirs (m ≫= k).
Proof.
  intros Hm Hk s q H. run. pose proof (Hm s q H) as H1.
  destruct (m s) as [[a|e] s'] eqn:E; simpl in *; [apply Hk |]; exact H1.
Qed.

Lemma keeps_getitem (j : json) (k : string) : keeps_dirs (getitem j k).
Proof.
  destruct j; try apply keeps_raise. simpl.
  destruct (assoc_last k fields); [apply keeps_ret | apply keeps_raise].
Qed.

Lemma keeps_py_iter (j : json) : keeps_dirs (py_iter j).
Proof. destruct j; first [apply keeps_ret | apply keeps_raise]. Qed.

Lemma keeps_as_path (j : json) : keeps_dirs (as_path j).
Proof. destruct j; first [apply keeps_ret | apply keeps_raise]. Qed.

Lemma keeps_mkdir (p : string) : keeps_dirs (mkdir p).
Proof.
  intros s q H. unfold mkdir. run.
  destruct (fs s !! p) eqn:E; simpl; [exact H |].
  unfold dir_exists in *. rewrite lookup_insert. case_decide as Heq; [done |]. exact H.
Qed.

Lemma keeps_write_file (dir name : string) (c : content) : keeps_dirs (write_file dir name c).
Proof.
  intros s q H. unfold write_file. run.
  destruct (fs s !! dir) as [[files|c']|] eqn:E; simpl; try exact H.
  unfold dir_exists in *. rewrite lookup_insert. case_decide; [done | exact H].
Qed.

Lemma keeps_clowder_get_m (w : world) (path : string) : keeps_dirs (clowder_get_m w path).
Proof.
  unfold clowder_get_m. apply keeps_bind; [apply keeps_emit | intros _].
  destruct (clowder_get w path); [apply keeps_ret | apply keeps_raise].
Qed.

Lemma keeps_clowder_get_file_m (w : world) (path dir name : string) :
  keeps_dirs (clowder_get_file_m w path dir name).
Proof.
  unfold clowder_get_file_m. apply keeps_bind; [apply keeps_emit | intros _].
  apply keeps_write_file.
Qed.

Lemma keeps_filter_m {A} (p : A -> M bool) (l : list A) :
  (forall x, keeps_dirs (p x)) -> keeps_dirs (filter_m p l).
Proof.
  intros Hp. induction l as [|x rest IH]; simpl; [apply keeps_ret |].
  apply keeps_bind; [apply Hp | intros b].
  apply keeps_bind; [exact IH | intros r; apply keeps_ret].
Qed.

Lemma keeps_for {A} (l : list A) (f : A -> M unit) :
  (forall x, keeps_dirs (f x)) -> keeps_dirs (for_ l f).
Proof.
  intros Hf. induction l as [|x rest IH]; simpl; [apply keeps_ret |].
  apply keeps_bind; [apply Hf | intros _; exact IH].
Qed.

Global Hint Resolve keeps_ret keeps_raise keeps_emit keeps_getitem keeps_py_iter
  keeps_as_path keeps_mkdir keeps_write_file keeps_clowder_get_m keeps_clowder_get_file_m : keeps.

Ltac keeps_tac :=
  repeat first
    [ progress (eauto with keeps)
    | apply keeps_bind; [| intros ?]
    | apply keeps_filter_m; intros ?
    | match goal with |- keeps_dirs (match ?x with _ => _ end) => destruct x end ].

Lemma keeps_download_dataset (w : world) (p : string) : keeps_dirs (download_dataset w p).
Proof. unfold download_dataset. keeps_tac. Qed.

Lemma keeps_download_rec (w : world) (r : json) : keeps_dirs (download_rec w r).
Proof. unfold download_rec. keeps_tac. Qed.

Lemma bind_ok_inv {A B} (m : M A) (k : A -> M B) (s s'' : state) (b : B) :
  (m ≫= k) s = (Ok b, s'') -> exists a s', m s = (Ok a, s') /\ k a s' = (Ok b, s'').
Proof.
  run. destruct (m s) as [[a|e] s'] eqn:E; [| discriminate]. eauto.
Qed.

Lemma mkdir_ok (p : string) (s s' : state) :
  mkdir p s = (Ok tt, s') -> dir_exists (fs s') p = true.
Proof.
  unfold mkdir. run. destruct (fs s !! p); [discriminate |].
  intros H. injection H as <-. simpl. unfold dir_exists. by rewrite lookup_insert_eq.
Qed.

Lemma download_dataset_ok (w : world) (p : string) (s s' : state) :
  download_dataset w p s = (Ok tt, s') -> dir_exists (fs s') p = true.
Proof.
  unfold download_dataset. intros H.
  apply bind_ok_inv in H as ([] & s1 & H1 & H2).
  apply mkdir_ok in H1.
  match type of H2 with ?m s1 = _ =>
    assert (Hk : keeps_dirs m) by keeps_tac end.
  pose proof (Hk s1 p H1) as Hp. rewrite H2 in Hp. exact Hp.
Qed.

Lemma download_rec_ok (w : world) (r : json) (s s' : state) :
  download_rec w r s = (Ok tt, s') -> exists p, rec_id r = Some p /\ dir_exists (fs s') p = true.
Proof.
  unfold download_rec. intros H.
  apply bind_ok_inv in H as (i & s1 & H1 & H2).
  apply bind_ok_inv in H2 as (p & s2 & H3 & H4).
  destruct r as [| | | | |fields]; try discriminate. simpl in H1.
  destruct (assoc_last "id" fields) as [v|] eqn:Hid; [| discriminate].
  injection H1 as Hv Hs. subst.
  destruct i as [| | |q| |]; try discriminate. injection H3 as Hq Hs. subst.
  exists p. split; [simpl; by rewrite Hid |].
  by apply download_dataset_ok in H4.
Qed.

Lemma download_loop_ok (w : world) (td : list json) (s s' : state) :
  for_ td (download_rec w) s = (Ok tt, s') ->
  Forall (fun r => exists p, rec_id r = Some p /\ dir_exists (fs s') p = true) td.
Proof.
  revert s. induction td as [|r rest IH]; intros s H; [constructor |].
  simpl in H. apply bind_ok_inv in H as ([] & s1 & H1 & H2).
  constructor; [| exact (IH s1 H2)].
  destruct (download_rec_ok w r s s1 H1) as (p & Hp & Hd).
  exists p. split; [exact Hp |].
  pose proof (keeps_for rest (download_rec w) (keeps_download_rec w) s1 p Hd) as Hk.
  rewrite H2 in Hk. exact Hk.
Qed.

Lemma needs_download_ok (r : json) (s s' : state) (b : bool) :
  needs_download r s = (Ok b, s') ->
  s' = s /\ exists p, rec_id r = Some p /\ b = negb (dir_exists (fs s) p).
Proof.
  unfold needs_download. intros H.
  apply bind_ok_inv in H as (i & s1 & H1 & H2).
  apply bind_ok_inv in H2 as (p & s2 & H3 & H4).
  destruct r as [| | | | |fields]; try discriminate. simpl in H1.
  destruct (assoc_last "id" fields) as [v|] eqn:Hid; [| discriminate].
  injection H1 as Hv Hs. subst.
  destruct i as [| | |q| |]; try discriminate. injection H3 as Hq Hs. subst.
  unfold is_dir in H4. run. injection H4 as Hb Hs. subst.
  split; [reflexivity |]. exists p. split; [simpl; by rewrite Hid | reflexivity].
Qed.

Lemma needs_download_of_id (r : json) (s : state) (p : string) :
  rec_id r = Some p -> needs_download r s = (Ok (negb (dir_exists (fs s) p)), s).
Proof.
  destruct r as [| | | | |fields]; try discriminate. simpl.
  destruct (assoc_last "id" fields) as [[| | |q| |]|] eqn:Hid; try discriminate.
  intros Hq. injection Hq as ->.
  unfold needs_download, is_dir. run. simpl. by rewrite Hid.
Qed.

Definition missing_dir (m : gmap string node) (r : json) : bool :=
  match rec_id r with Some p => negb (dir_exists m p) | None => false end.

Lemma missing_dir_of_id (m : gmap string node) (r : json) (p : string) :
  rec_id r = Some p -> missing_dir m r = negb (dir_exists m p).
Proof. unfold missing_dir. by intros ->. Qed.

Lemma filter_needs_download_ok (recs td : list json) (s s' : state) :
  filter_m needs_download recs s = (Ok td, s') ->
  s' = s /\ Forall (fun r => is_Some (rec_id r)) recs /\
  td = List.filter (missing_dir (fs s)) recs.
Proof.
  revert td s s'. induction recs as [|r rest IH]; intros td s s' H.
  - simpl in H. injection H as <- <-. auto.
  - simpl in H. apply bind_ok_inv in H as (b & s1 & H1 & H2).
    apply bind_ok_inv in H2 as (td' & s2 & H3 & H4).
    apply needs_download_ok in H1 as (-> & p & Hp & ->).
    apply IH in H3 as (-> & Hall & ->).
    injection H4 as <- <-.
    split; [reflexivity |]. split; [constructor; [by rewrite Hp | exact Hall] |].
    simpl. by rewrite (missing_dir_of_id _ _ _ Hp).
Qed.

Lemma filter_needs_download_none (recs : list json) (s : state) :
  Forall (fun r => exists p, rec_id r = Some p /\ dir_exists (fs s) p = true) recs ->
  filter_m needs_download recs s = (Ok [], s).
Proof.
  induction 1 as [|r rest (p & Hp & Hd) _ IH]; [reflexivity |].
  simpl. run. rewrite (needs_download_of_id r s p Hp), Hd. simpl.
  run. rewrite IH. reflexivity.
Qed.

Lemma filter_needs_download_run (recs : list json) (s : state) :
  Forall (fun r => is_Some (rec_id r)) recs ->
  filter_m needs_download recs s = (Ok (List.filter (missing_dir (fs s)) recs), s).
Proof.
  induction 1 as [|r rest [p Hp] _ IH]; [reflexivity |].
  simpl. run. rewrite (needs_download_of_id r s p Hp). simpl.
  run. rewrite IH. by rewrite (missing_dir_of_id _ _ _ Hp).
Qed.

Lemma clowder_get_m_ok (w : world) (path : string) (s s' : state) (j : json) :
  clowder_get_m w path s = (Ok j, s') ->
  clowder_get w path = Some j /\ s' = {| fs := fs s; trace := trace s ++ [EvGet path] |}.
Proof.
  unfold clowder_get_m. run. destruct (clowder_get w path); [| discriminate].
  intros H. injection H as <- <-. auto.
Qed.

Lemma clowder_get_m_run (w : world) (path : string) (s : state) (j : json) :
  clowder_get w path = Some j ->
  clowder_get_m w path s = (Ok j, {| fs := fs s; trace := trace s ++ [EvGet path] |}).
Proof. intros H. unfold clowder_get_m. run. by rewrite H. Qed.

Lemma py_iter_pure (j : json) : exists r, forall s, py_iter j s = (r, s).
Proof. destruct j; eexists; intros st; reflexivity. Qed.

(** C5. Once a run of [download_space] has completed, every listed dataset has
    its directory, and a second run against the same remote side makes no
    call but the listing: zero dataset downloads, no filesystem change.
    The datasets a run downloads are, in order, the listed records whose
    directory did not exist when it started. *)
Theorem download_space_rerun_downloads_nothing (w : world) (space_id : string) (s s1 : state) :
  download_space w space_id s = (Ok tt, s1) ->
  download_space w space_id s1 =
    (Ok tt, {| fs := fs s1;
               trace := trace s1 ++ [EvGet ("/spaces/" +:+ space_id +:+ "/datasets")] |}) /\
  (forall recs, clowder_get w ("/spaces/" +:+ space_id +:+ "/datasets") = Some (JArr recs) ->
   download_space w space_id s =
     for_ (List.filter (missing_dir (fs s)) recs) (download_rec w)
       {| fs := fs s; trace := trace s ++ [EvGet ("/spaces/" +:+ space_id +:+ "/datasets")] |}).
Proof.
  intros H. pose proof H as Hrun.
  unfold download_space in H.
  apply bind_ok_inv in H as (ds & s2 & Hget & H).
  apply clowder_get_m_ok in Hget as [Hget ->].
  apply bind_ok_inv in H as (recs & s3 & Hiter & H).
  destruct (py_iter_pure ds) as [ri Hri].
  rewrite Hri in Hiter. injection Hiter as -> <-.
  apply bind_ok_inv in H as (td & s4 & Hflt & Hloop).
  apply filter_needs_download_ok in Hflt as (-> & Hids & ->).
  set (s2 := {| fs := fs s; trace := trace s ++ [EvGet ("/spaces/" +:+ space_id +:+ "/datasets")] |})
    in *.
  split.
  - (* every listed dataset has its directory after the first run *)
    assert (Hdirs : Forall (fun r => exists p, rec_id r = Some p /\ dir_exists (fs s1) p = true) recs).
    { apply Forall_forall. intros r Hr.
      rewrite Forall_forall in Hids. destruct (Hids r Hr) as [p Hp].
      destruct (dir_exists (fs s2) p) eqn:Hd.
      - exists p. split; [exact Hp |].
        pose proof (keeps_for (List.filter (missing_dir (fs s2)) recs) (download_rec w)
                      (keeps_download_rec w) s2 p Hd) as Hk.
        rewrite Hloop in Hk. exact Hk.
      - apply download_loop_ok in Hloop.
        rewrite List.Forall_forall in Hloop.
        assert (Hin : In r (List.filter (missing_dir (fs s2)) recs)).
        { apply filter_In. split; [by apply list_elem_of_In |].
          by rewrite (missing_dir_of_id _ _ _ Hp), Hd. }
        destruct (Hloop r Hin) as (p' & Hp' & Hd'). rewrite Hp in Hp'.
        injection Hp' as <-. exists p. auto. }
    unfold download_space. run. rewrite (clowder_get_m_run w _ s1 ds Hget). simpl.
    rewrite Hri. rewrite filter_needs_download_none by exact Hdirs. reflexivity.
  - intros recs' Hrecs. rewrite Hget in Hrecs. injection Hrecs as ->.
    unfold download_space. run. rewrite (clowder_get_m_run w _ s _ Hget). simpl.
    specialize (Hri s2). simpl in Hri. injection Hri as ->. fold s2.
    rewrite (filter_needs_download_run recs s2 Hids). reflexivity.
Qed.

Lemma download_space_rerun_downloads_nothing_witness :
  let s1 := snd (download_space demo_world "S" empty_state) in
  download_space demo_world "S" empty_state = (Ok tt, s1) /\
  download_space demo_world "S" s1 =
    (Ok tt, {| fs := fs s1; trace := trace s1 ++ [EvGet ("/spaces/" +:+ "S" +:+ "/datasets")] |}) /\
  (forall recs, clowder_get demo_world ("/spaces/" +:+ "S" +:+ "/datasets") = Some (JArr recs) ->
   download_space demo_world "S" empty_state =
     for_ (List.filter (missing_dir (fs empty_state)) recs) (download_rec demo_world)
       {| fs := fs empty_state;
          trace := trace empty_state ++ [EvGet ("/spaces/" +:+ "S" +:+ "/datasets")] |}).
Proof.
  intros s1.
  assert (H : download_space demo_world "S" empty_state = (Ok tt, s1)) by (vm_compute; reflexivity).
  split; [exact H |].
  apply (download_space_rerun_downloads_nothing demo_world "S" empty_state s1 H).
Defined.

(** * Further properties of the code *)

(** ** Worlds used by the examples below *)

(** A service that answers nothing: every [clowder.get] raises. *)
Definition offline_world : world := {|
  guess_type := fun _ => None;
  local_readable := fun _ => false;
  clowder_get := fun _ => None;
  clowder_file_bytes := fun _ => "";
  clowder_post := fun _ _ => JNull;
  clowder_post_file := fun _ _ => None;
  http_post_multipart := fun _ _ _ => HttpRaise;
  str_other := fun _ => ""
|}.

(** [w], except that [clowder.get(path)] returns [j]. *)
Definition with_get (w : world) (path : string) (j : json) : world := {|
  guess_type := guess_type w;
  local_readable := local_readable w;
  clowder_get := fun p => if String.eqb p path then Some j else clowder_get w p;
  clowder_file_bytes := clowder_file_bytes w;
  clowder_post := clowder_post w;
  clowder_post_file := clowder_post_file w;
  http_post_multipart := http_post_multipart w;
  str_other := str_other w
|}.

(** ** [download_dataset] and [download_space] *)

Lemma bind_raise_inv {A B} (m : M A) (k : A -> M B) (s s'' : state) (e : exn) :
  (m ≫= k) s = (Raise e, s'') ->
  m s = (Raise e, s'') \/ exists a s', m s = (Ok a, s') /\ k a s' = (Raise e, s'').
Proof.
  run. destruct (m s) as [[a|e'] s'] eqn:E; intros H; [right; eauto | left; congruence].
Qed.

Lemma download_dataset_on_dir (w : world) (p : string) (s : state) :
  dir_exists (fs s) p = true -> download_dataset w p s = (Raise (FileExistsError p), s).
Proof.
  unfold dir_exists. intros Hd. unfold download_dataset, mkdir. run.
  destruct (fs s !! p); [reflexivity | discriminate].
Qed.

(** The errors of the steps of [download_dataset] after its [mkdir]:
    [clowder.get] raising, or a file record without a usable ["filename"]
    or ["id"]. [Path.mkdir] raises none of them. *)
Definition raised_after_mkdir (e : exn) : bool :=
  match e with HTTPError _ | KeyError _ | TypeError => true | _ => false end.

(** A [download_dataset] that fails after its [mkdir] (a request raising, a
    malformed file record) leaves the directory behind: calling it again
    raises [FileExistsError], and the existence test of [download_space]
    reports the dataset as already downloaded. *)
Theorem download_dataset_failure_leaves_dir (w : world) (p : string) (s s' : state) (e : exn) :
  download_dataset w p s = (Raise e, s') ->
  raised_after_mkdir e = true ->
  dir_exists (fs s') p = true /\
  download_dataset w p s' = (Raise (FileExistsError p), s') /\
  (forall r, rec_id r = Some p -> needs_download r s' = (Ok false, s')).
Proof.
  intros H Hne. unfold download_dataset in H.
  apply bind_raise_inv in H as [H | ([] & s1 & H1 & H2)].
  - exfalso. unfold mkdir in H. run. destruct (fs s !! p); [| discriminate].
    injection H as <- _. discriminate.
  - apply mkdir_ok in H1.
    match type of H2 with ?m s1 = _ => assert (Hk : keeps_dirs m) by keeps_tac end.
    pose proof (Hk s1 p H1) as Hd. rewrite H2 in Hd. simpl in Hd.
    split; [exact Hd |]. split; [by apply download_dataset_on_dir |].
    intros r Hr. rewrite (needs_download_of_id r s' p Hr), Hd. reflexivity.
Qed.

Lemma download_dataset_failure_leaves_dir_witness :
  let s' := snd (download_dataset offline_world "d1" empty_state) in
  download_dataset offline_world "d1" empty_state =
    (Raise (HTTPError "/datasets/d1/metadata.jsonld"), s') /\
  raised_after_mkdir (HTTPError "/datasets/d1/metadata.jsonld") = true /\
  dir_exists (fs s') "d1" = true /\
  download_dataset offline_world "d1" s' = (Raise (FileExistsError "d1"), s') /\
  (forall r, rec_id r = Some "d1" -> needs_download r s' = (Ok false, s')).
Proof.
  intros s'.
  assert (H : download_dataset offline_world "d1" empty_state =
                (Raise (HTTPError "/datasets/d1/metadata.jsonld"), s'))
    by (vm_compute; reflexivity).
  split; [exact H |]. split; [reflexivity |].
  exact (download_dataset_failure_leaves_dir offline_world "d1" empty_state s' _ H eq_refl).
Defined.

Lemma needs_download_no_id (r : json) (s : state) :
  rec_id r = None ->
  exists e, (e = KeyError "id" \/ e = TypeError) /\ needs_download r s = (Raise e, s).
Proof.
  destruct r as [| | | | |fields]; intros Hr;
    try (exists TypeError; split; [right; reflexivity | reflexivity]).
  cbn [rec_id] in Hr. unfold needs_download, getitem. run.
  destruct (assoc_last "id" fields) as [v|].
  - destruct v; try discriminate; exists TypeError; split; auto.
  - exists (KeyError "id"). auto.
Qed.

Lemma filter_needs_download_raise (recs : list json) (s : state) :
  Exists (fun r => rec_id r = None) recs ->
  exists e, (e = KeyError "id" \/ e = TypeError) /\ filter_m needs_download recs s = (Raise e, s).
Proof.
  induction recs as [|r rest IH]; intros Hex; [inversion Hex |].
  cbn [filter_m]. run.
  destruct (rec_id r) as [p|] eqn:Hr.
  - rewrite (needs_download_of_id r s p Hr).
    apply Exists_cons in Hex as [Hbad | Hex]; [congruence |].
    destruct (IH Hex) as (e & He & Hrun). exists e. split; [exact He |].
    rewrite Hrun. reflexivity.
  - destruct (needs_download_no_id r s Hr) as (e & He & Hrun).
    exists e. rewrite Hrun. auto.
Qed.

(** [download_space] checks every record of the listing before it
    downloads anything: if one record has no usable ["id"] (missing, or not
    a string), the command raises [KeyError] or [TypeError] after the
    listing request alone; no dataset is downloaded. *)
Theorem download_space_bad_record_downloads_nothing (w : world) (space_id : string)
    (recs : list json) (s : state) :
  clowder_get w ("/spaces/" +:+ space_id +:+ "/datasets") = Some (JArr recs) ->
  Exists (fun r => rec_id r = None) recs ->
  exists e, (e = KeyError "id" \/ e = TypeError) /\
    download_space w space_id s =
      (Raise e, {| fs := fs s; trace := trace s ++ [EvGet ("/spaces/" +:+ space_id +:+ "/datasets")] |}).
Proof.
  intros Hget Hex.
  destruct (filter_needs_download_raise recs
              {| fs := fs s; trace := trace s ++ [EvGet ("/spaces/" +:+ space_id +:+ "/datasets")] |}
              Hex) as (e & He & Hrun).
  exists e. split; [exact He |].
  unfold download_space. run. rewrite (clowder_get_m_run w _ s _ Hget).
  cbv [py_iter mret M_ret]. rewrite Hrun. reflexivity.
Qed.

Lemma download_space_bad_record_downloads_nothing_witness :
  let w := with_get demo_world "/spaces/S/datasets"
             (JArr [JObj [("id", JStr "d1")]; JObj [("name", JStr "no id")]]) in
  clowder_get w ("/spaces/" +:+ "S" +:+ "/datasets") =
    Some (JArr [JObj [("id", JStr "d1")]; JObj [("name", JStr "no id")]]) /\
  Exists (fun r => rec_id r = None) [JObj [("id", JStr "d1")]; JObj [("name", JStr "no id")]] /\
  exists e, (e = KeyError "id" \/ e = TypeError) /\
    download_space w "S" empty_state =
      (Raise e, {| fs := fs empty_state;
                   trace := trace empty_state ++ [EvGet ("/spaces/" +:+ "S" +:+ "/datasets")] |}).
Proof.
  intros w.
  assert (Hget : clowder_get w ("/spaces/" +:+ "S" +:+ "/datasets") =
                   Some (JArr [JObj [("id", JStr "d1")]; JObj [("name", JStr "no id")]]))
    by reflexivity.
  assert (Hex : Exists (fun r => rec_id r = None)
                  [JObj [("id", JStr "d1")]; JObj [("name", JStr "no id")]])
    by (right; left; reflexivity).
  split; [exact Hget |]. split; [exact Hex |].
  exact (download_space_bad_record_downloads_nothing w "S" _ empty_state Hget Hex).
Defined.

Lemma download_rec_of_id (w : world) (r : json) (p : string) (s : state) :
  rec_id r = Some p -> download_rec w r s = download_dataset w p s.
Proof.
  destruct r as [| | | | |fields]; try discriminate. cbn [rec_id].
  destruct (assoc_last "id" fields) as [[| | |q| |]|] eqn:Hid; try discriminate.
  intros Hq. injection Hq as <-.
  unfold download_rec, getitem, as_path. run. rewrite Hid. reflexivity.
Qed.

Lemma for_app_ok {A} (l1 l2 : list A) (f : A -> M unit) (s s1 : state) :
  for_ l1 f s = (Ok tt, s1) -> for_ (l1 ++ l2) f s = for_ l2 f s1.
Proof.
  revert s. induction l1 as [|x rest IH]; intros s H.
  - simpl in H. injection H as <-. reflexivity.
  - simpl in H. apply bind_ok_inv in H as ([] & s2 & H1 & H2).
    simpl. run. rewrite H1. exact (IH s2 H2).
Qed.

(** The existence test of [download_space] runs once, before the
    downloads: a dataset listed twice in a row, anywhere in the listing,
    whose directory is missing is downloaded once, then its second
    [download_dataset] raises [FileExistsError]; the files of the first
    download stay. This holds once the downloads listed before it went
    through. *)
Theorem download_space_duplicate_id_fails (w : world) (space_id : string)
    (pre : list json) (r : json) (post : list json) (p : string) (s s2 s3 : state) :
  let s1 := {| fs := fs s; trace := trace s ++ [EvGet ("/spaces/" +:+ space_id +:+ "/datasets")] |} in
  clowder_get w ("/spaces/" +:+ space_id +:+ "/datasets") = Some (JArr (pre ++ r :: r :: post)) ->
  rec_id r = Some p ->
  Forall (fun x => is_Some (rec_id x)) (pre ++ post) ->
  dir_exists (fs s) p = false ->
  for_ (List.filter (missing_dir (fs s)) pre) (download_rec w) s1 = (Ok tt, s2) ->
  download_dataset w p s2 = (Ok tt, s3) ->
  download_space w space_id s = (Raise (FileExistsError p), s3).
Proof.
  intros s1 Hget Hr Hids Hd Hpre Hfirst.
  assert (Hall : Forall (fun x => is_Some (rec_id x)) (pre ++ r :: r :: post)).
  { apply Forall_app in Hids as [Hp Hq]. apply Forall_app. split; [exact Hp |].
    repeat constructor; try rewrite Hr; done. }
  unfold download_space. run. rewrite (clowder_get_m_run w _ s _ Hget).
  cbv [py_iter mret M_ret].
  rewrite (filter_needs_download_run _ _ Hall). cbn [fs].
  rewrite List.filter_app. cbn [List.filter].
  rewrite (missing_dir_of_id _ _ _ Hr), Hd. cbn [negb].
  fold s1. rewrite (for_app_ok _ _ _ s1 s2 Hpre). cbn [for_]. run.
  rewrite (download_rec_of_id w r p _ Hr), Hfirst.
  rewrite (download_rec_of_id w r p _ Hr).
  rewrite (download_dataset_on_dir w p s3) by (exact (download_dataset_ok w p _ s3 Hfirst)).
  reflexivity.
Qed.

Lemma download_space_duplicate_id_fails_witness :
  let w := with_get demo_world "/spaces/S/datasets"
             (JArr [JObj [("id", JStr "d1")]; JObj [("id", JStr "d2")]; JObj [("id", JStr "d2")]]) in
  let s1 := {| fs := fs empty_state;
               trace := trace empty_state ++ [EvGet ("/spaces/" +:+ "S" +:+ "/datasets")] |} in
  let s2 := snd (for_ (List.filter (missing_dir (fs empty_state)) [JObj [("id", JStr "d1")]])
                   (download_rec w) s1) in
  let s3 := snd (download_dataset w "d2" s2) in
  clowder_get w ("/spaces/" +:+ "S" +:+ "/datasets") =
    Some (JArr ([JObj [("id", JStr "d1")]] ++ JObj [("id", JStr "d2")] :: JObj [("id", JStr "d2")] :: [])) /\
  rec_id (JObj [("id", JStr "d2")]) = Some "d2" /\
  Forall (fun x => is_Some (rec_id x)) ([JObj [("id", JStr "d1")]] ++ []) /\
  dir_exists (fs empty_state) "d2" = false /\
  for_ (List.filter (missing_dir (fs empty_state)) [JObj [("id", JStr "d1")]]) (download_rec w) s1
    = (Ok tt, s2) /\
  download_dataset w "d2" s2 = (Ok tt, s3) /\
  download_space w "S" empty_state = (Raise (FileExistsError "d2"), s3).
Proof.
  intros w s1 s2 s3.
  assert (Hget : clowder_get w ("/spaces/" +:+ "S" +:+ "/datasets") =
    Some (JArr ([JObj [("id", JStr "d1")]] ++ JObj [("id", JStr "d2")] :: JObj [("id", JStr "d2")] :: [])))
    by reflexivity.
  assert (Hids : Forall (fun x => is_Some (rec_id x)) ([JObj [("id", JStr "d1")]] ++ []))
    by (repeat constructor; eexists; reflexivity).
  assert (Hpre : for_ (List.filter (missing_dir (fs empty_state)) [JObj [("id", JStr "d1")]])
                   (download_rec w) s1 = (Ok tt, s2)) by (vm_compute; reflexivity).
  assert (Hfirst : download_dataset w "d2" s2 = (Ok tt, s3)) by (vm_compute; reflexivity).
  split; [exact Hget |]. split; [reflexivity |]. split; [exact Hids |].
  split; [reflexivity |]. split; [exact Hpre |]. split; [exact Hfirst |].
  exact (download_space_duplicate_id_fails w "S" [JObj [("id", JStr "d1")]] _ [] "d2"
           empty_state s2 s3 Hget eq_refl Hids eq_refl Hpre Hfirst).
Defined.

(** On a fresh identifier whose metadata and file listing (a list of file
    records) are served, [download_dataset] makes exactly these requests:
    the metadata, the file listing, then at most one file download, that of
    the first record named [DSC_Curve.csv]; the bytes of that file become
    [DSC_Curve.csv], and any later record of the same name is ignored. *)
Theorem download_dataset_requests (w : world) (dataset_id : string) (s : state)
    (metadata : json) (files : list json) :
  fs s !! dataset_id = None ->
  clowder_get w ("/datasets/" +:+ dataset_id +:+ "/metadata.jsonld") = Some metadata ->
  clowder_get w ("/datasets/" +:+ dataset_id +:+ "/files") = Some (JArr files) ->
  Forall file_record files ->
  exists s', download_dataset w dataset_id s = (Ok tt, s') /\
    match List.filter is_dsc files with
    | [] =>
        new_events s s' = [EvGet ("/datasets/" +:+ dataset_id +:+ "/metadata.jsonld");
                           EvGet ("/datasets/" +:+ dataset_id +:+ "/files")]
    | f0 :: _ =>
        exists fields fid, f0 = JObj fields /\ assoc_last "id" fields = Some fid /\
        new_events s s' = [EvGet ("/datasets/" +:+ dataset_id +:+ "/metadata.jsonld");
                           EvGet ("/datasets/" +:+ dataset_id +:+ "/files");
                           EvGetFile ("/files/" +:+ py_str w fid) dataset_id "DSC_Curve.csv"] /\
        exists dir, fs s' !! dataset_id = Some (NDir dir) /\
          dir !! "DSC_Curve.csv" = Some (Text (clowder_file_bytes w ("/files/" +:+ py_str w fid)))
    end.
Proof.
  intros Hnone Hmeta Hfiles Hall.
  unfold download_dataset, mkdir, clowder_get_m, write_file. run.
  rewrite Hnone. simpl. rewrite Hmeta. simpl. rewrite lookup_insert_eq. simpl.
  rewrite Hfiles. simpl. rewrite filter_dsc_run by done.
  destruct (List.filter is_dsc files) as [|f0 rest] eqn:Hflt.
  - eexists. split; [reflexivity |].
    apply new_events_of. simpl. by rewrite <- app_assoc.
  - destruct (filter_dsc_record files f0 rest Hall Hflt) as (fields & fname & fid & -> & _ & Hid).
    simpl. rewrite Hid. unfold clowder_get_file_m, write_file. run. simpl.
    rewrite lookup_insert_eq.
    eexists. split; [reflexivity |].
    exists fields, fid. split; [reflexivity |]. split; [exact Hid |]. split.
    + apply new_events_of. simpl. by rewrite <- !app_assoc.
    + eexists. simpl. split; [by rewrite lookup_insert_eq |].
      by rewrite lookup_insert_eq.
Qed.

Lemma download_dataset_requests_witness :
  let files := [JObj [("id", JStr "f1"); ("filename", JStr "DSC_Curve.csv")];
                JObj [("id", JStr "f2"); ("filename", JStr "DSC_Curve.csv")]] in
  let w := with_get demo_world "/datasets/d3/files" (JArr files) in
  fs empty_state !! "d3" = None /\
  clowder_get w ("/datasets/" +:+ "d3" +:+ "/metadata.jsonld") = Some (JObj [("@context", JStr "meta")]) /\
  clowder_get w ("/datasets/" +:+ "d3" +:+ "/files") = Some (JArr files) /\
  Forall file_record files /\
  exists s', download_dataset w "d3" empty_state = (Ok tt, s') /\
    match List.filter is_dsc files with
    | [] =>
        new_events empty_state s' = [EvGet ("/datasets/" +:+ "d3" +:+ "/metadata.jsonld");
                                     EvGet ("/datasets/" +:+ "d3" +:+ "/files")]
    | f0 :: _ =>
        exists fields fid, f0 = JObj fields /\ assoc_last "id" fields = Some fid /\
        new_events empty_state s' =
          [EvGet ("/datasets/" +:+ "d3" +:+ "/metadata.jsonld");
           EvGet ("/datasets/" +:+ "d3" +:+ "/files");
           EvGetFile ("/files/" +:+ py_str w fid) "d3" "DSC_Curve.csv"] /\
        exists dir, fs s' !! "d3" = Some (NDir dir) /\
          dir !! "DSC_Curve.csv" = Some (Text (clowder_file_bytes w ("/files/" +:+ py_str w fid)))
    end.
Proof.
  intros files w.
  assert (Hrec : Forall file_record files).
  { repeat (apply List.Forall_cons; [eexists _, _, _; split; [reflexivity | split; reflexivity] |]).
    apply List.Forall_nil. }
  split; [reflexivity |]. split; [reflexivity |]. split; [reflexivity |].
  split; [exact Hrec |].
  apply (download_dataset_requests w "d3" empty_state (JObj [("@context", JStr "meta")])); [reflexivity.. | exact Hrec].
Defined.

(** ** [upload_file] *)

(** With exactly one space flag but no file, [upload_file] prints an error
    and raises [typer.Exit(code=1)] before any network call. *)
Theorem upload_file_rejects_no_files (w : world) (cure post_cure front_velocity test : bool)
    (dataset_name : option string) (s : state) :
  sum_values (space_names cure post_cure front_velocity test) = 1 ->
  upload_file w cure post_cure front_velocity test dataset_name [] s =
  (Raise (Exit 1),
   {| fs := fs s; trace := trace s ++ [EvPrint "Error: You must specify at least one file to upload."] |}).
Proof.
  intros Hsum. unfold upload_file. cbv zeta. rewrite Hsum. simpl. run. reflexivity.
Qed.

Lemma upload_file_rejects_no_files_witness :
  sum_values (space_names false true false false) = 1 /\
  upload_file demo_world false true false false None [] empty_state =
  (Raise (Exit 1),
   {| fs := fs empty_state;
      trace := trace empty_state ++ [EvPrint "Error: You must specify at least one file to upload."] |}).
Proof.
  split; [reflexivity |]. apply upload_file_rejects_no_files. reflexivity.
Defined.

(** When the create call answers with a truthy value that has no ["id"]
    (a dict without that key, or a non-empty list, string or number),
    [upload_file] raises [KeyError] or [TypeError] right after it: no file
    is uploaded and the dataset URL is never reported. *)
Theorem upload_file_create_without_id (w : world) (cure post_cure front_velocity test : bool)
    (dataset_name : option string) (file_names : list string) (s : state) (n sid : string) :
  sum_values (space_names cure post_cure front_velocity test) = 1 ->
  file_names <> [] ->
  next_true (space_names cure post_cure front_velocity test) = Some n ->
  lookup_str n space_map = Some sid ->
  let body := create_payload (opt_str_or dataset_name (default_new_dataset_name config)) sid in
  let resp := clowder_post w "/datasets/createempty" body in
  truthy resp = true ->
  (forall fields, resp = JObj fields -> assoc_last "id" fields = None) ->
  exists e, (e = KeyError "id" \/ e = TypeError) /\
    upload_file w cure post_cure front_velocity test dataset_name file_names s =
    (Raise e, {| fs := fs s;
                 trace := trace s ++ [EvPrint ("Uploading to Space: " +:+ n +:+ " and " +:+ sid);
                                      EvPost "/datasets/createempty" body] |}).
Proof.
  intros Hsum Hfiles Hn Hl body resp Ht Hnoid.
  rewrite (upload_file_after_checks w _ _ _ _ dataset_name file_names s n sid Hsum Hfiles Hn Hl).
  cbv zeta. fold body. fold resp. rewrite Ht. cbn [negb]. run.
  destruct resp as [| | | | |fields]; cbn [getitem]; run;
    try (exists TypeError; split; [right | ]; reflexivity).
  rewrite (Hnoid fields eq_refl). exists (KeyError "id"). split; [left |]; reflexivity.
Qed.

Lemma upload_file_create_without_id_witness :
  let w := {| guess_type := guess_type demo_world; local_readable := local_readable demo_world;
              clowder_get := clowder_get demo_world;
              clowder_file_bytes := clowder_file_bytes demo_world;
              clowder_post := fun _ _ => JObj [("status", JStr "ok")];
              clowder_post_file := clowder_post_file demo_world;
              http_post_multipart := http_post_multipart demo_world;
              str_other := str_other demo_world |} in
  let sid := "6810f088e4b00420021cff64" in
  let body := create_payload (opt_str_or None (default_new_dataset_name config)) sid in
  let resp := clowder_post w "/datasets/createempty" body in
  sum_values (space_names true false false false) = 1 /\
  ["a.csv"] <> [] /\
  next_true (space_names true false false false) = Some "DSC Cure Kinetics" /\
  lookup_str "DSC Cure Kinetics" space_map = Some sid /\
  truthy resp = true /\
  (forall fields, resp = JObj fields -> assoc_last "id" fields = None) /\
  exists e, (e = KeyError "id" \/ e = TypeError) /\
    upload_file w true false false false None ["a.csv"] empty_state =
    (Raise e, {| fs := fs empty_state;
                 trace := trace empty_state ++
                   [EvPrint ("Uploading to Space: " +:+ "DSC Cure Kinetics" +:+ " and " +:+ sid);
                    EvPost "/datasets/createempty" body] |}).
Proof.
  intros w sid body resp.
  assert (Hnoid : forall fields, resp = JObj fields -> assoc_last "id" fields = None)
    by (intros fields H; injection H as <-; reflexivity).
  split; [reflexivity |]. split; [discriminate |]. split; [reflexivity |].
  split; [reflexivity |]. split; [reflexivity |]. split; [exact Hnoid |].
  exact (upload_file_create_without_id w true false false false None ["a.csv"] empty_state
           "DSC Cure Kinetics" sid eq_refl ltac:(discriminate) eq_refl eq_refl eq_refl Hnoid).
Defined.

(** The MIME type [_upload_file_with_mimetype] sends is never empty, and a
    non-empty guess of [mimetypes.guess_type] is sent unchanged (the
    [.mp4] fallback only fills in a missing guess). *)
Theorem mime_of_nonempty_keeps_guess (w : world) (f : string) :
  mime_of w f <> "" /\
  (forall m, guess_type w f = Some m -> m <> "" -> mime_of w f = m).
Proof.
  unfold mime_of, opt_str_or, opt_str_truthy.
  destruct (guess_type w f) as [g|] eqn:Hg.
  - destruct (String.eqb g "") eqn:E; cbn [negb andb].
    + apply String.eqb_eq in E. subst g.
      split; [destruct (ends_with _ _); discriminate |].
      intros m Hm Hne. injection Hm as <-. congruence.
    + cbn [opt_str_truthy negb]. rewrite E. cbn [negb].
      split; [intros ->; discriminate |].
      intros m Hm _. by injection Hm as <-.
  - split; [destruct (ends_with _ _); discriminate | discriminate].
Qed.

Lemma mime_of_nonempty_keeps_guess_witness :
  mime_of demo_world "clip.mov" <> "" /\
  (forall m, guess_type demo_world "clip.mov" = Some m -> m <> "" -> mime_of demo_world "clip.mov" = m).
Proof. apply mime_of_nonempty_keeps_guess. Defined.







(** ** The listing commands [spaces] and [list_datasets] *)

Ltac lrun := cbv [mbind ML_bind mret ML_ret lraise lift M_bind M_ret raise emit print get_fs put_fs] in *.

Definition is_get (e : event) : Prop := match e with EvGet _ => True | _ => False end.

(** An action that leaves the state as it is. *)
Definition ml_pure {A} (m : ML A) : Prop := forall s, snd (m s) = s.

(** An action that leaves the filesystem as it is and only adds requests
    [clowder.get] to the trace. *)
Definition ml_reads {A} (m : ML A) : Prop :=
  forall s, fs (snd (m s)) = fs s /\
            exists gets, Forall is_get gets /\ trace (snd (m s)) = trace s ++ gets.

(** An action that leaves the filesystem as it is, makes requests [gets]
    (with [G gets]) and, only when it succeeds, prints one table last. *)
Definition prints_last (render : table -> string) (G : list event -> Prop) (m : ML unit) : Prop :=
  forall s, let '(r, s') := m s in
  fs s' = fs s /\ exists gets, G gets /\
  match r with
  | LOk _ => exists t, trace s' = trace s ++ gets ++ [EvPrint (render t)]
  | LRaise _ => trace s' = trace s ++ gets
  end.

Lemma pure_ret {A} (a : A) : ml_pure (mret a).
Proof. intros s. reflexivity. Qed.

Lemma pure_lraise {A} (e : list_exn) : ml_pure (A := A) (lraise e).
Proof. intros s. reflexivity. Qed.

Lemma pure_bind {A B} (m : ML A) (k : A -> ML B) :
  ml_pure m -> (forall a, ml_pure (k a)) -> ml_pure (m ≫= k).
Proof.
  intros Hm Hk s. cbv [mbind ML_bind]. pose proof (Hm s) as H.
  destruct (m s) as [[a|e] s'] eqn:E; simpl in H; subst s'; [apply Hk | reflexivity].
Qed.

Lemma pure_lift {A} (m : M A) : (forall s, snd (m s) = s) -> ml_pure (lift m).
Proof.
  intros Hm s. unfold lift. pose proof (Hm s) as H.
  destruct (m s) as [[a|e] s'] eqn:E; exact H.
Qed.

Lemma getitem_state (j : json) (k : string) (s : state) : snd (getitem j k s) = s.
Proof. destruct j; try reflexivity. simpl. by destruct (assoc_last k fields). Qed.

Lemma py_iter_state (j : json) (s : state) : snd (py_iter j s) = s.
Proof. by destruct j. Qed.

Lemma py_len_state (j : json) (s : state) : snd (py_len j s) = s.
Proof. by destruct j. Qed.

Lemma pure_render_cell (j : json) : ml_pure (render_cell j).
Proof. destruct j; first [apply pure_ret | apply pure_lraise]. Qed.

Lemma pure_render_cells (cells : list json) : ml_pure (render_cells cells).
Proof.
  induction cells as [|c rest IH]; cbn [render_cells]; [apply pure_ret |].
  apply pure_bind; [apply pure_render_cell | intros x].
  apply pure_bind; [exact IH | intros xs; apply pure_ret].
Qed.

Lemma pure_add_row (t : table) (cells : list json) : ml_pure (add_row t cells).
Proof. apply pure_bind; [apply pure_render_cells | intros r; apply pure_ret]. Qed.

Lemma pure_dict_get (j : json) (k : string) (dflt : json) : ml_pure (dict_get j k dflt).
Proof. destruct j; first [apply pure_ret | apply pure_lraise]. Qed.

Lemma pure_fold_m {A B} (f : B -> A -> ML B) (b : B) (l : list A) :
  (forall b a, ml_pure (f b a)) -> ml_pure (fold_m f b l).
Proof.
  intros Hf. revert b. induction l as [|x rest IH]; intros b; cbn [fold_m]; [apply pure_ret |].
  apply pure_bind; [apply Hf | intros b'; apply IH].
Qed.

Lemma pure_dataset_row (t : table) (d : json) : ml_pure (dataset_row t d).
Proof.
  apply pure_bind; [apply pure_dict_get | intros n].
  apply pure_bind; [apply pure_dict_get | intros i]. apply pure_add_row.
Qed.

Lemma reads_of_pure {A} (m : ML A) : ml_pure m -> ml_reads m.
Proof.
  intros Hm s. rewrite (Hm s). split; [reflexivity |].
  exists []. split; [constructor | by rewrite app_nil_r].
Qed.

Lemma reads_bind {A B} (m : ML A) (k : A -> ML B) :
  ml_reads m -> (forall a, ml_reads (k a)) -> ml_reads (m ≫= k).
Proof.
  intros Hm Hk s. cbv [mbind ML_bind]. destruct (Hm s) as (Hfs & g1 & Hg1 & Ht1).
  destruct (m s) as [[a|e] s'] eqn:E; simpl in *.
  - destruct (Hk a s') as (Hfs2 & g2 & Hg2 & Ht2).
    split; [congruence |]. exists (g1 ++ g2). split; [by apply Forall_app |].
    by rewrite Ht2, Ht1, app_assoc.
  - split; [exact Hfs |]. by exists g1.
Qed.

Lemma reads_lift_get (w : world) (p : string) : ml_reads (lift (clowder_get_m w p)).
Proof.
  intros s. unfold lift, clowder_get_m. run.
  destruct (clowder_get w p); simpl; (split; [reflexivity |]);
    exists [EvGet p]; (split; [repeat constructor | reflexivity]).
Qed.

Lemma reads_fold_m {A B} (f : B -> A -> ML B) (b : B) (l : list A) :
  (forall b a, ml_reads (f b a)) -> ml_reads (fold_m f b l).
Proof.
  intros Hf. revert b. induction l as [|x rest IH]; intros b; cbn [fold_m].
  - apply reads_of_pure, pure_ret.
  - apply reads_bind; [apply Hf | intros b'; apply IH].
Qed.

Lemma reads_space_row (w : world) (t : table) (sp : json) : ml_reads (space_row w t sp).
Proof.
  unfold space_row.
  apply reads_bind; [apply reads_of_pure, pure_lift, getitem_state | intros i].
  apply reads_bind; [apply reads_lift_get | intros ds].
  apply reads_bind; [apply reads_of_pure, pure_lift, getitem_state | intros n].
  apply reads_bind; [apply reads_of_pure, pure_lift, getitem_state | intros i'].
  apply reads_bind; [apply reads_of_pure, pure_lift, py_len_state | intros k].
  apply reads_of_pure, pure_add_row.
Qed.

Lemma pl_print (render : table -> string) (G : list event -> Prop) (t : table) :
  G [] -> prints_last render G (lift (print (render t))).
Proof.
  intros HG s. lrun. simpl. split; [reflexivity |].
  exists []. split; [exact HG |]. by exists t.
Qed.

Lemma pl_bind_pure {A} (render : table -> string) (G : list event -> Prop)
    (m : ML A) (k : A -> ML unit) :
  ml_pure m -> G [] -> (forall a, prints_last render G (k a)) -> prints_last render G (m ≫= k).
Proof.
  intros Hm HG Hk s. cbv [mbind ML_bind]. pose proof (Hm s) as H.
  destruct (m s) as [[a|e] s'] eqn:E; simpl in H; subst s'; [apply Hk |].
  split; [reflexivity |]. exists []. split; [exact HG | by rewrite app_nil_r].
Qed.

Lemma pl_bind_reads {A} (render : table -> string) (m : ML A) (k : A -> ML unit) :
  ml_reads m -> (forall a, prints_last render (Forall is_get) (k a)) ->
  prints_last render (Forall is_get) (m ≫= k).
Proof.
  intros Hm Hk s. cbv [mbind ML_bind]. destruct (Hm s) as (Hfs & g1 & Hg1 & Ht1).
  destruct (m s) as [[a|e] s'] eqn:E; simpl in *.
  - pose proof (Hk a s') as H2. destruct (k a s') as [r s''].
    destruct H2 as (Hfs2 & g2 & Hg2 & Hr).
    split; [congruence |]. exists (g1 ++ g2). split; [by apply Forall_app |].
    destruct r.
    + destruct Hr as [t Ht]. exists t. by rewrite Ht, Ht1, <- !app_assoc.
    + by rewrite Hr, Ht1, app_assoc.
  - split; [exact Hfs |]. exists g1. split; [exact Hg1 | exact Ht1].
Qed.

Lemma pl_bind_get (w : world) (render : table -> string) (p : string) (k : json -> ML unit) :
  (forall a, prints_last render (fun g => g = []) (k a)) ->
  prints_last render (fun g => g = [EvGet p]) (lift (clowder_get_m w p) ≫= k).
Proof.
  intros Hk s. cbv [mbind ML_bind lift]. unfold clowder_get_m. run.
  destruct (clowder_get w p) as [j|]; simpl.
  - set (s1 := {| fs := fs s; trace := trace s ++ [EvGet p] |}).
    pose proof (Hk j s1) as H2. destruct (k j s1) as [r s''].
    destruct H2 as (Hfs2 & g2 & -> & Hr).
    split; [exact Hfs2 |]. exists [EvGet p]. split; [reflexivity |].
    destruct r.
    + destruct Hr as [t Ht]. exists t. rewrite Ht. simpl. by rewrite <- app_assoc.
    + rewrite Hr. simpl. by rewrite app_nil_r.
  - split; [reflexivity |]. exists [EvGet p]. split; reflexivity.
Qed.

(** The listing commands only read: they never change the filesystem,
    every request they make is a [clowder.get], and they print one thing,
    the table, as their last action and only when they succeed; when they
    raise, nothing has been printed. [list_datasets] makes exactly one
    request, the listing of the space. *)
Theorem listing_commands_read_only (w : world) (render : table -> string) (space : string)
    (s : state) :
  (let '(r, s') := spaces w render s in
   fs s' = fs s /\ exists gets, Forall is_get gets /\
   match r with
   | LOk _ => exists t, trace s' = trace s ++ gets ++ [EvPrint (render t)]
   | LRaise _ => trace s' = trace s ++ gets
   end) /\
  (let '(r, s') := list_datasets w render space s in
   fs s' = fs s /\
   match r with
   | LOk _ => exists t, trace s' = trace s ++ [EvGet ("/spaces/" +:+ space +:+ "/datasets")] ++
                                   [EvPrint (render t)]
   | LRaise _ => trace s' = trace s ++ [EvGet ("/spaces/" +:+ space +:+ "/datasets")]
   end).
Proof.
  split.
  - assert (H : prints_last render (Forall is_get) (spaces w render)).
    { unfold spaces.
      apply pl_bind_reads; [apply reads_lift_get | intros d].
      apply pl_bind_reads; [apply reads_of_pure, pure_lift, py_iter_state | intros items].
      apply pl_bind_reads; [apply reads_fold_m, reads_space_row | intros t].
      apply pl_print. constructor. }
    exact (H s).
  - assert (H : prints_last render (fun g => g = [EvGet ("/spaces/" +:+ space +:+ "/datasets")])
                  (list_datasets w render space)).
    { unfold list_datasets. apply pl_bind_get. intros d.
      apply pl_bind_pure; [apply pure_lift, py_iter_state | reflexivity | intros items].
      apply pl_bind_pure; [apply pure_fold_m, pure_dataset_row | reflexivity | intros t].
      apply pl_print. reflexivity. }
    pose proof (H s) as Hs. destruct (list_datasets w render space s) as [r s'].
    destruct Hs as (Hfs & g & -> & Hr). split; [exact Hfs | exact Hr].
Qed.













(** A JSON object where a list is expected (an error response, say): when
    the space listing is a non-empty object, [list_datasets] iterates over
    its keys and raises [AttributeError] on the first one ([str] has no
    [.get]); when [/spaces] is a non-empty object, [spaces] raises
    [TypeError] ([space["id"]] on a [str]). Neither prints anything. *)
Theorem listing_object_response_raises (w : world) (render : table -> string) (space : string)
    (kv : string * json) (rest : list (string * json)) (s : state) :
  (clowder_get w ("/spaces/" +:+ space +:+ "/datasets") = Some (JObj (kv :: rest)) ->
   list_datasets w render space s =
   (LRaise AttributeError,
    {| fs := fs s; trace := trace s ++ [EvGet ("/spaces/" +:+ space +:+ "/datasets")] |})) /\
  (clowder_get w "/spaces" = Some (JObj (kv :: rest)) ->
   spaces w render s =
   (LRaise (LExn TypeError), {| fs := fs s; trace := trace s ++ [EvGet "/spaces"] |})).
Proof.
  split; intros Hget.
  - unfold list_datasets. lrun. rewrite (clowder_get_m_run w _ s _ Hget).
    cbv [py_iter mret M_ret map fold_m dataset_row dict_get]. lrun. reflexivity.
  - unfold spaces. lrun. rewrite (clowder_get_m_run w _ s _ Hget).
    cbv [py_iter mret M_ret map fold_m space_row getitem]. lrun. reflexivity.
Qed.

Lemma listing_object_response_raises_witness :
  let err := JObj [("status", JStr "error")] in
  let w := with_get (with_get demo_world "/spaces" err) "/spaces/S/datasets" err in
  (clowder_get w ("/spaces/" +:+ "S" +:+ "/datasets") = Some (JObj [("status", JStr "error")]) /\
   list_datasets w (fun t => title t) "S" empty_state =
   (LRaise AttributeError,
    {| fs := fs empty_state; trace := trace empty_state ++ [EvGet ("/spaces/" +:+ "S" +:+ "/datasets")] |})) /\
  (clowder_get w "/spaces" = Some (JObj [("status", JStr "error")]) /\
   spaces w (fun t => title t) empty_state =
   (LRaise (LExn TypeError), {| fs := fs empty_state; trace := trace empty_state ++ [EvGet "/spaces"] |})).
Proof.
  intros err w.
  destruct (listing_object_response_raises w (fun t => title t) "S" ("status", JStr "error") []
              empty_state) as [H1 H2].
  split; (split; [reflexivity |]); [apply H1 | apply H2]; reflexivity.
Defined.
